(** * Vehicle loyalty subsystem of the car-wash backend

    A shallow embedding of the three models [VehicleStats], [VehicleOffer]
    and [Offer] (backend/models) and of the controllers that orchestrate
    them (backend/controllers), over an explicit relational store.

    Every [db.execute] of the source is a store transition: a table with a
    primary or unique key is a finite map from that key to its row, SQL
    NULL is [None], and a JavaScript [throw] leaves the store as it was at
    the point of the throw. [VehicleStats] and [VehicleOffer] take [db]
    from config/db; [Offer] takes it from config/env, which exports none,
    so its calls of [db.execute] throw instead. *)

From Stdlib Require Import ZArith QArith String Ascii List Lia DecimalString.
From stdpp Require Import gmap strings.

Local Open Scope string_scope.
Local Open Scope Z_scope.

(** ** JavaScript values of request bodies *)

(** A property of a request body or of a data object: absent
    ([undefined]), [null], or a value. *)
Inductive field (A : Type) : Type :=
  | undefined
  | null
  | val (a : A).
Arguments undefined {A}.
Arguments null {A}.
Arguments val {A} a.

(** JavaScript numbers as far as the models look at them: a rational or
    [NaN] (what [parseFloat] gives on a missing or malformed input). *)
Inductive jsnum : Type :=
  | NaN
  | Num (q : Q).

(** [!x] on the values of a type: which of them are falsy. *)
Class Falsy (A : Type) := falsy : A -> bool.

#[global] Instance falsy_Z : Falsy Z := fun n => n =? 0.
#[global] Instance falsy_string : Falsy string :=
  fun s => match s with EmptyString => true | _ => false end.
#[global] Instance falsy_jsnum : Falsy jsnum :=
  fun x => match x with NaN => true | Num q => Qeq_bool q 0 end.
#[global] Instance falsy_bool : Falsy bool := negb.

(** [!f] *)
Definition not_ {A} `{Falsy A} (f : field A) : bool :=
  match f with
  | val a => falsy a
  | _ => true
  end.

(** [f ? true : false] *)
Definition truthy {A} `{Falsy A} (f : field A) : bool := negb (not_ f).

(** [f !== undefined] *)
Definition provided {A} (f : field A) : bool :=
  match f with undefined => false | _ => true end.

(** [f || null] as a bind parameter: a falsy value is sent as NULL. *)
Definition or_null {A} `{Falsy A} (f : field A) : option A :=
  match f with
  | val a => if falsy a then None else Some a
  | _ => None
  end.

(** A defined property as a bind parameter: [null] is SQL NULL. *)
Definition to_sql {A} (f : field A) : option A :=
  match f with val a => Some a | _ => None end.

(** Destructuring default [{ x = d }]: only [undefined] takes the default. *)
Definition with_default {A} (d : A) (f : field A) : field A :=
  match f with undefined => val d | _ => f end.

(** ** Dates and timestamps *)

Record date : Type := mkDate { year : Z; month : Z; day : Z }.

Record timestamp : Type := mkTimestamp { ts_date : date; ts_seconds : Z }.

#[global] Instance date_eq_dec : EqDecision date.
Proof. solve_decision. Defined.
#[global] Instance timestamp_eq_dec : EqDecision timestamp.
Proof. solve_decision. Defined.
#[global] Instance falsy_timestamp : Falsy timestamp := fun _ => false.
#[global] Instance falsy_date : Falsy date := fun _ => false.

(** [d1 < d2] on DATE columns. *)
Definition date_ltb (d1 d2 : date) : bool :=
  (year d1 <? year d2)
  || ((year d1 =? year d2)
      && ((month d1 <? month d2)
          || ((month d1 =? month d2) && (day d1 <? day d2)))).

Definition digits (n : Z) : string :=
  NilZero.string_of_uint (N.to_uint (Z.to_N n)).

Definition pad2 (n : Z) : string :=
  if n <? 10 then "0" +:+ digits n else digits n.

Definition pad4 (n : Z) : string :=
  if n <? 10 then "000" +:+ digits n
  else if n <? 100 then "00" +:+ digits n
  else if n <? 1000 then "0" +:+ digits n
  else digits n.

(** A DATE in a string context, as CONCAT renders it: YYYY-MM-DD. *)
Definition date_text (d : date) : string :=
  pad4 (year d) +:+ "-" +:+ pad2 (month d) +:+ "-" +:+ pad2 (day d).

(** ** Tables

    The schema is not among the sources. The columns are those the
    statements name; a column an INSERT does not name is left NULL, except
    the counters (see [counter_default]), and no column changes unless a
    statement assigns it. *)

(** vehicle_stats, one row per vehicle_id (the key of the upsert). *)
Record VehicleStatsRow : Type := mkStats {
  total_visits : Z;
  current_visit_count : Z;
  total_offers_earned : Z;
  total_offers_used : Z;
  last_visit_date : option timestamp;
  vs_updated_at : option timestamp
}.

(** vehicle_offers, keyed by its surrogate id. *)
Record VehicleOfferRow : Type := mkVehicleOffer {
  vehicle_id : option Z;
  offer_id : option Z;
  earned_on_visit_id : option Z;
  issued_date : option timestamp;
  used_date : option timestamp;
  used_on_visit_id : option Z;
  status : option string;
  notes : option string;
  vo_updated_at : option timestamp
}.

(** offers, keyed by id. *)
Record OfferRow : Type := mkOffer {
  name : option string;
  description : option string;
  visit_threshold : option jsnum;
  discount_type : option string;
  discount_value : option jsnum;
  is_active : option bool;
  valid_from : option date;
  valid_until : option date
}.

#[global] Instance VehicleStatsRow_eq_dec : EqDecision VehicleStatsRow.
Proof. solve_decision. Defined.
#[global] Instance VehicleOfferRow_eq_dec : EqDecision VehicleOfferRow.
Proof. solve_decision. Defined.

(** Modelled from the spec: the table definitions (schema) are not among
    the sources; the counters the INSERT statements do not name take the
    column default, which the spec's data model has as a zeroed counter. *)
Definition counter_default : Z := 0.

(** The database together with the clock the statements read through
    CURRENT_TIMESTAMP and CURRENT_DATE ([new Date()] reads the same). *)
Record Store : Type := mkStore {
  vehicles : gset Z;
  vehicle_stats : gmap Z VehicleStatsRow;
  vehicle_offers : gmap Z VehicleOfferRow;
  vehicle_offers_auto_increment : Z;
  offers : gmap Z OfferRow;
  offers_auto_increment : Z;
  clock : timestamp
}.

Definition CURRENT_TIMESTAMP (st : Store) : timestamp := clock st.
Definition CURRENT_DATE (st : Store) : date := ts_date (clock st).

Definition set_vehicle_stats (t : gmap Z VehicleStatsRow) (st : Store) : Store :=
  mkStore (vehicles st) t (vehicle_offers st)
          (vehicle_offers_auto_increment st) (offers st)
          (offers_auto_increment st) (clock st).

Definition set_vehicle_offers (t : gmap Z VehicleOfferRow) (st : Store) : Store :=
  mkStore (vehicles st) (vehicle_stats st) t
          (vehicle_offers_auto_increment st) (offers st)
          (offers_auto_increment st) (clock st).

Definition set_offers (t : gmap Z OfferRow) (st : Store) : Store :=
  mkStore (vehicles st) (vehicle_stats st) (vehicle_offers st)
          (vehicle_offers_auto_increment st) t
          (offers_auto_increment st) (clock st).

(** ** Promises over the store *)

(** How a call ends: the promise resolves, it rejects with the message of
    the thrown Error, or ([OutOfFuel]) the bound on the depth of recursion
    that the embedding puts on a self-calling function was too small. *)
Inductive outcome (A : Type) : Type :=
  | Resolved (a : A)
  | Rejected (message : string)
  | OutOfFuel.
Arguments Resolved {A} a.
Arguments Rejected {A} message.
Arguments OutOfFuel {A}.

(** An async function: runs against the store and resolves or rejects. *)
Definition async (A : Type) : Type := Store -> Store * outcome A.

Definition ret {A} (a : A) : async A := fun st => (st, Resolved a).
Definition throw {A} (message : string) : async A := fun st => (st, Rejected message).
Definition out_of_fuel {A} : async A := fun st => (st, OutOfFuel).

Definition bind {A B} (m : async A) (k : A -> async B) : async B :=
  fun st =>
    match m st with
    | (st', Resolved a) => k a st'
    | (st', Rejected e) => (st', Rejected e)
    | (st', OutOfFuel) => (st', OutOfFuel)
    end.

(** [try { m } catch (e) { h e }] *)
Definition try_catch {A} (m : async A) (h : string -> async A) : async A :=
  fun st =>
    match m st with
    | (st', Rejected e) => h e st'
    | r => r
    end.

(** A SELECT, and a data-changing statement that reports affectedRows. *)
Definition query {A} (f : Store -> A) : async A := fun st => (st, Resolved (f st)).
Definition execute (f : Store -> Store * Z) : async Z :=
  fun st => let (st', affectedRows) := f st in (st', Resolved affectedRows).

(** [new Date()] *)
Definition new_Date : async timestamp := query CURRENT_TIMESTAMP.

Declare Scope async_scope.
Delimit Scope async_scope with async.
Notation "'let!' x ':=' m 'in' k" := (bind m (fun x => k))
  (at level 10, x name, m at level 100, k at level 200) : async_scope.
Notation "'await' m ';;' k" := (bind m (fun _ => k))
  (at level 10, m at level 99, k at level 200) : async_scope.
Local Open Scope async_scope.

(** ** models/VehicleStats *)

Module VehicleStats.

(** SELECT id FROM vehicles WHERE id = ? *)
Definition select_vehicle (vehicleId : Z) (st : Store) : list Z :=
  if decide (vehicleId ∈ vehicles st) then [vehicleId] else [].

(** INSERT ... VALUES (?, 1, 1, CURRENT_TIMESTAMP)
    ON DUPLICATE KEY UPDATE total_visits = total_visits + 1, ... *)
Definition upsert_visit (vehicleId : Z) (st : Store) : Store * Z :=
  match vehicle_stats st !! vehicleId with
  | None =>
      (set_vehicle_stats
         (<[vehicleId :=
              mkStats 1 1 counter_default counter_default
                      (Some (CURRENT_TIMESTAMP st)) None]> (vehicle_stats st)) st,
       1)
  | Some r =>
      (set_vehicle_stats
         (<[vehicleId :=
              mkStats (total_visits r + 1) (current_visit_count r + 1)
                      (total_offers_earned r) (total_offers_used r)
                      (Some (CURRENT_TIMESTAMP st))
                      (Some (CURRENT_TIMESTAMP st))]> (vehicle_stats st)) st,
       2)
  end.

(** UPDATE vehicle_stats SET <assignments> WHERE vehicle_id = ? *)
Definition update_where_vehicle (f : Store -> VehicleStatsRow -> VehicleStatsRow)
    (vehicleId : Z) (st : Store) : Store * Z :=
  match vehicle_stats st !! vehicleId with
  | None => (st, 0)
  | Some r => (set_vehicle_stats (<[vehicleId := f st r]> (vehicle_stats st)) st, 1)
  end.

Definition findByVehicleId (vehicleId : Z) : async (option VehicleStatsRow) :=
  query (fun st => vehicle_stats st !! vehicleId).

Definition recordVisit (vehicleId : Z) : async (option VehicleStatsRow) :=
  let! vehicles := query (select_vehicle vehicleId) in
  if (Z.of_nat (length vehicles) =? 0) then throw "Vehicle not found"
  else
    await execute (upsert_visit vehicleId) ;;
    findByVehicleId vehicleId.

Definition resetVisitCount (vehicleId : Z) : async (option VehicleStatsRow) :=
  let! affectedRows := execute (update_where_vehicle
    (fun st r => mkStats (total_visits r) 0 (total_offers_earned r)
                         (total_offers_used r) (last_visit_date r)
                         (Some (CURRENT_TIMESTAMP st))) vehicleId) in
  if affectedRows =? 0 then throw "Vehicle statistics not found"
  else findByVehicleId vehicleId.

(** The function calls itself after creating the missing row; [fuel]
    bounds the depth of that recursion. *)
Fixpoint incrementOffersEarned (fuel : nat) (vehicleId : Z)
    : async (option VehicleStatsRow) :=
  match fuel with
  | O => out_of_fuel
  | S fuel' =>
      let! affectedRows := execute (update_where_vehicle
        (fun st r => mkStats (total_visits r) (current_visit_count r)
                             (total_offers_earned r + 1) (total_offers_used r)
                             (last_visit_date r)
                             (Some (CURRENT_TIMESTAMP st))) vehicleId) in
      if affectedRows =? 0 then
        await recordVisit vehicleId ;;
        incrementOffersEarned fuel' vehicleId
      else
        findByVehicleId vehicleId
  end.

Fixpoint incrementOffersUsed (fuel : nat) (vehicleId : Z)
    : async (option VehicleStatsRow) :=
  match fuel with
  | O => out_of_fuel
  | S fuel' =>
      let! affectedRows := execute (update_where_vehicle
        (fun st r => mkStats (total_visits r) (current_visit_count r)
                             (total_offers_earned r) (total_offers_used r + 1)
                             (last_visit_date r)
                             (Some (CURRENT_TIMESTAMP st))) vehicleId) in
      if affectedRows =? 0 then
        await recordVisit vehicleId ;;
        incrementOffersUsed fuel' vehicleId
      else
        findByVehicleId vehicleId
  end.

(** The manual adjustment: the counters of [updateData] that are not
    [undefined] (each already an integer after [parseInt]). *)
Record updateData : Type := mkUpdateData {
  u_total_visits : option Z;
  u_current_visit_count : option Z;
  u_total_offers_earned : option Z;
  u_total_offers_used : option Z
}.

Definition updateStats (vehicleId : Z) (d : updateData)
    : async (option VehicleStatsRow) :=
  let! affectedRows := execute (update_where_vehicle
    (fun st r => mkStats (default (total_visits r) (u_total_visits d))
                         (default (current_visit_count r) (u_current_visit_count d))
                         (default (total_offers_earned r) (u_total_offers_earned d))
                         (default (total_offers_used r) (u_total_offers_used d))
                         (last_visit_date r)
                         (Some (CURRENT_TIMESTAMP st))) vehicleId) in
  if affectedRows =? 0 then throw "Vehicle statistics not found"
  else findByVehicleId vehicleId.

(** INSERT INTO vehicle_stats (vehicle_id, total_visits, current_visit_count)
    VALUES (?, 0, 0) *)
Definition insert_initial (vehicleId : Z) (st : Store) : Store * Z :=
  (set_vehicle_stats
     (<[vehicleId := mkStats 0 0 counter_default counter_default None None]>
        (vehicle_stats st)) st, 1).

Definition initializeStats (vehicleId : Z) : async (option VehicleStatsRow) :=
  let! existingStats := findByVehicleId vehicleId in
  match existingStats with
  | Some r => ret (Some r)
  | None =>
      await execute (insert_initial vehicleId) ;;
      findByVehicleId vehicleId
  end.

End VehicleStats.

(** ** models/VehicleOffer *)

Module VehicleOffer.

(** The object [create] and [update] destructure (and the request body
    the controller builds it from). *)
Record offerData : Type := mkOfferData {
  data_vehicle_id : field Z;
  data_offer_id : field Z;
  data_earned_on_visit_id : field Z;
  data_issued_date : field timestamp;
  data_used_date : field timestamp;
  data_used_on_visit_id : field Z;
  data_status : field string;
  data_notes : field string
}.

(** A result row of [findById]: the row with its id. *)
Definition found : Type := (Z * VehicleOfferRow)%type.
Definition id (o : found) : Z := fst o.
Definition row (o : found) : VehicleOfferRow := snd o.

(** [col = ?] in a WHERE clause: never true on NULL. *)
Definition sql_eq {A} `{EqDecision A} (col param : option A) : bool :=
  match col, param with
  | Some a, Some b => bool_decide (a = b)
  | _, _ => false
  end.

Definition is_status (s : string) (r : VehicleOfferRow) : bool :=
  sql_eq (status r) (Some s).

(** INSERT INTO vehicle_offers (...) VALUES (?, ?, ?, ?, ?, ?, ?, ?) *)
Definition insert (r : VehicleOfferRow) (st : Store) : Store * Z :=
  let insertId := vehicle_offers_auto_increment st in
  (mkStore (vehicles st) (vehicle_stats st)
           (<[insertId := r]> (vehicle_offers st)) (insertId + 1)
           (offers st) (offers_auto_increment st) (clock st),
   insertId).

Definition select_by_id (i : Z) (st : Store) : option found :=
  r ← vehicle_offers st !! i; Some (i, r).

Definition create (d : offerData) : async (option found) :=
  let status := with_default "active" (data_status d) in
  if not_ (data_vehicle_id d) || not_ (data_offer_id d) then
    throw "Vehicle ID and Offer ID are required"
  else
    let! now := new_Date in
    let! insertId := execute (insert
      (mkVehicleOffer
         (to_sql (data_vehicle_id d))
         (to_sql (data_offer_id d))
         (or_null (data_earned_on_visit_id d))
         (Some (default now (or_null (data_issued_date d))))
         (or_null (data_used_date d))
         (or_null (data_used_on_visit_id d))
         (to_sql status)
         (or_null (data_notes d))
         None)) in
    query (select_by_id insertId).

Definition findById (i : Z) : async (option found) :=
  query (select_by_id i).

(** UPDATE vehicle_offers SET <assignments> WHERE id = ? AND status = 'active' *)
Definition update_where_id_active
    (f : Store -> VehicleOfferRow -> VehicleOfferRow) (i : Z) (st : Store)
    : Store * Z :=
  match vehicle_offers st !! i with
  | Some r =>
      if is_status "active" r
      then (set_vehicle_offers (<[i := f st r]> (vehicle_offers st)) st, 1)
      else (st, 0)
  | None => (st, 0)
  end.

(** SET status = 'used', used_date = CURRENT_TIMESTAMP,
    used_on_visit_id = ?, notes = ? *)
Definition used_row (st : Store) (visit : option Z) (notes : field string)
    (r : VehicleOfferRow) : VehicleOfferRow :=
  mkVehicleOffer (vehicle_id r) (offer_id r) (earned_on_visit_id r)
    (issued_date r) (Some (CURRENT_TIMESTAMP st)) visit (Some "used")
    (to_sql notes) (vo_updated_at r).

(** SET status = 'expired', notes = ? *)
Definition expired_row (notes : field string) (r : VehicleOfferRow)
    : VehicleOfferRow :=
  mkVehicleOffer (vehicle_id r) (offer_id r) (earned_on_visit_id r)
    (issued_date r) (used_date r) (used_on_visit_id r) (Some "expired")
    (to_sql notes) (vo_updated_at r).

(** [notes = null] in the parameter list: [undefined] becomes [null], and
    either is bound as NULL. *)
Definition markAsUsed (i : Z) (usedOnVisitId : option Z) (notes : field string)
    : async (option found) :=
  let! affectedRows := execute (update_where_id_active
    (fun st r => used_row st usedOnVisitId notes r) i) in
  if affectedRows =? 0 then throw "Vehicle offer not found or not active"
  else findById i.

Definition markAsExpired (i : Z) (notes : field string) : async (option found) :=
  let! affectedRows := execute (update_where_id_active
    (fun st r => expired_row notes r) i) in
  if affectedRows =? 0 then throw "Vehicle offer not found or not active"
  else findById i.

(** One assignment of the dynamic SET list: present only if the property
    is not [undefined]; [null] assigns NULL. *)
Definition assign {A} (f : field A) (old : option A) : option A :=
  if provided f then to_sql f else old.

(** UPDATE vehicle_offers SET <provided columns>, updated_at =
    CURRENT_TIMESTAMP WHERE id = ? *)
Definition update_where_id (d : offerData) (i : Z) (st : Store) : Store * Z :=
  match vehicle_offers st !! i with
  | Some r =>
      (set_vehicle_offers
         (<[i := mkVehicleOffer
                   (assign (data_vehicle_id d) (vehicle_id r))
                   (assign (data_offer_id d) (offer_id r))
                   (assign (data_earned_on_visit_id d) (earned_on_visit_id r))
                   (assign (data_issued_date d) (issued_date r))
                   (assign (data_used_date d) (used_date r))
                   (assign (data_used_on_visit_id d) (used_on_visit_id r))
                   (assign (data_status d) (status r))
                   (assign (data_notes d) (notes r))
                   (Some (CURRENT_TIMESTAMP st))]> (vehicle_offers st)) st,
       1)
  | None => (st, 0)
  end.

Definition update (i : Z) (updateData : offerData) : async (option found) :=
  let! affectedRows := execute (update_where_id updateData i) in
  if affectedRows =? 0 then ret None
  else findById i.

(** DELETE FROM vehicle_offers WHERE id = ? *)
Definition delete_where_id (i : Z) (st : Store) : Store * Z :=
  match vehicle_offers st !! i with
  | Some _ => (set_vehicle_offers (base.delete i (vehicle_offers st)) st, 1)
  | None => (st, 0)
  end.

Definition delete (i : Z) : async bool :=
  let! affectedRows := execute (delete_where_id i) in
  ret (0 <? affectedRows).

(** WHERE vehicle_id = ? AND offer_id = ? AND status = 'active' *)
Definition active_for (vehicleId offerId : option Z) (r : VehicleOfferRow) : bool :=
  sql_eq (vehicle_id r) vehicleId && sql_eq (offer_id r) offerId
  && is_status "active" r.

(** SELECT COUNT( * ) as count FROM vehicle_offers WHERE ... *)
Definition count_active (vehicleId offerId : option Z) (st : Store) : Z :=
  Z.of_nat (size (filter (fun kr => active_for vehicleId offerId (snd kr) = true)
                         (vehicle_offers st))).

Definition hasActiveOffer (vehicleId offerId : option Z) : async bool :=
  let! count := query (count_active vehicleId offerId) in
  ret (0 <? count).

(** The join and WHERE clause of the bulk expiry: for an active row whose
    offer (LEFT JOIN offers o ON vo.offer_id = o.id) has a valid_until
    that IS NOT NULL and lies before CURRENT_DATE, that date. *)
Definition stale (st : Store) (r : VehicleOfferRow) : option date :=
  if is_status "active" r then
    oid ← offer_id r;
    o ← offers st !! oid;
    d ← valid_until o;
    if date_ltb d (CURRENT_DATE st) then Some d else None
  else None.

(** SET vo.status = 'expired', vo.notes = CONCAT('Auto-expired: Offer
    validity ended on ', o.valid_until) *)
Definition expire_row (st : Store) (r : VehicleOfferRow) : VehicleOfferRow :=
  match stale st r with
  | Some d =>
      mkVehicleOffer (vehicle_id r) (offer_id r) (earned_on_visit_id r)
        (issued_date r) (used_date r) (used_on_visit_id r)
        (Some "expired")
        (Some ("Auto-expired: Offer validity ended on " +:+ date_text d))
        (vo_updated_at r)
  | None => r
  end.

Definition update_join_expire (st : Store) : Store * Z :=
  (set_vehicle_offers (expire_row st <$> vehicle_offers st) st,
   Z.of_nat (size (filter (fun kr => is_Some (stale st (snd kr)))
                          (vehicle_offers st)))).

Definition expireOffers : async Z := execute update_join_expire.

End VehicleOffer.

(** ** config/env *)

Module env.

(** The properties of the object config/env exports. *)
Definition exports : list string :=
  ["PORT"; "DATABASE_URL"; "HOST"; "USER"; "PASSWORD"; "DATABASE";
   "JWT_SECRET"; "MPESA_CONSUMER_KEY"; "MPESA_CONSUMER_SECRET";
   "MPESA_PASSKEY"; "MPESA_SHORTCODE"; "MPESA_CALLBACK_URL"].

End env.

(** ** models/Offer *)

Module Offer.

(** A connection pool, had the module one. *)
Inductive pool : Type := Pool.

(** [const { db } = require('../config/env')]: the other models take [db]
    from config/db; this one destructures it from the exports of
    config/env, and a property an object does not have is [undefined]. *)
Definition db : field pool :=
  if bool_decide ("db" ∈ env.exports) then val Pool else undefined.

(** The message of the TypeError a property access on [undefined]
    throws. *)
Definition TypeError_execute : string :=
  "Cannot read properties of undefined (reading 'execute')".

(** [await db.execute(sql, values)]: on a pool the statement runs against
    the store; on [undefined] or [null] reading [execute] throws before
    any statement is sent. *)
Definition db_execute {A} (statement : async A) : async A :=
  match db with
  | val _ => statement
  | _ => throw TypeError_execute
  end.

Record offerData : Type := mkOfferData {
  data_name : field string;
  data_description : field string;
  data_visit_threshold : field jsnum;
  data_discount_type : field string;
  data_discount_value : field jsnum;
  data_is_active : field bool;
  data_valid_from : field date;
  data_valid_until : field date
}.

Definition found : Type := (Z * OfferRow)%type.
Definition id (o : found) : Z := fst o.
Definition row (o : found) : OfferRow := snd o.

Definition validDiscountTypes : list string :=
  ["percentage"; "fixed_amount"; "free_wash"].

(** [validDiscountTypes.includes(x)] *)
Definition includes (l : list string) (x : field string) : bool :=
  match x with
  | val s => bool_decide (s ∈ l)
  | _ => false
  end.

(** [x === s] and [x !== s] against a string literal. *)
Definition strict_eq (x : field string) (s : string) : bool :=
  match x with
  | val s' => bool_decide (s' = s)
  | _ => false
  end.

(** [x <= 0] and [x > 0]; a comparison with NaN (and so with
    [undefined]) is false, and [null] compares as 0. *)
Definition le_zero (x : field jsnum) : bool :=
  match x with
  | val (Num q) => Qle_bool q 0
  | null => true
  | _ => false
  end.

Definition gt_zero (x : field jsnum) : bool :=
  match x with
  | val (Num q) => negb (Qle_bool q 0)
  | _ => false
  end.

(** INSERT INTO offers (...) VALUES (?, ?, ?, ?, ?, ?, ?, ?) *)
Definition insert (r : OfferRow) (st : Store) : Store * Z :=
  let insertId := offers_auto_increment st in
  (mkStore (vehicles st) (vehicle_stats st) (vehicle_offers st)
           (vehicle_offers_auto_increment st)
           (<[insertId := r]> (offers st)) (insertId + 1) (clock st),
   insertId).

Definition select_by_id (i : Z) (st : Store) : option found :=
  r ← offers st !! i; Some (i, r).

Definition create (d : offerData) : async (option found) :=
  let is_active := with_default true (data_is_active d) in
  if not_ (data_name d) || not_ (data_visit_threshold d)
     || not_ (data_discount_type d) then
    throw "Name, visit threshold, and discount type are required"
  else if negb (includes validDiscountTypes (data_discount_type d)) then
    throw "Invalid discount type. Must be: percentage, fixed_amount, or free_wash"
  else if negb (strict_eq (data_discount_type d) "free_wash")
          && (not_ (data_discount_value d) || le_zero (data_discount_value d)) then
    throw "Discount value is required and must be positive for non-free wash offers"
  else if strict_eq (data_discount_type d) "free_wash"
          && truthy (data_discount_value d) && gt_zero (data_discount_value d) then
    throw "Discount value should be null or 0 for free_wash offers"
  else
    let! insertId := db_execute (execute (insert
      (mkOffer
         (to_sql (data_name d))
         (or_null (data_description d))
         (to_sql (data_visit_threshold d))
         (to_sql (data_discount_type d))
         (if strict_eq (data_discount_type d) "free_wash"
          then Some (Num 0) else to_sql (data_discount_value d))
         (to_sql is_active)
         (or_null (data_valid_from d))
         (or_null (data_valid_until d))))) in
    db_execute (query (select_by_id insertId)).

Definition findById (i : Z) : async (option found) :=
  db_execute (query (select_by_id i)).

(** DELETE FROM offers WHERE id = ? *)
Definition delete_where_id (i : Z) (st : Store) : Store * Z :=
  match offers st !! i with
  | Some _ => (set_offers (base.delete i (offers st)) st, 1)
  | None => (st, 0)
  end.

Definition delete (i : Z) : async bool :=
  let! affectedRows := db_execute (execute (delete_where_id i)) in
  ret (0 <? affectedRows).

(** WHERE name = ? and, when [excludeId] is truthy, AND id != ? *)
Definition name_taken (n : string) (excludeId : field Z) (kr : Z * OfferRow) : Prop :=
  name (snd kr) = Some n
  /\ match or_null excludeId with
     | Some e => fst kr <> e
     | None => True
     end.

#[global] Instance name_taken_dec n excludeId kr : Decision (name_taken n excludeId kr).
Proof. unfold name_taken. destruct (or_null excludeId); apply _. Defined.

(** SELECT COUNT( * ) as count FROM offers WHERE ... *)
Definition count_name (n : string) (excludeId : field Z) (st : Store) : Z :=
  Z.of_nat (size (filter (name_taken n excludeId) (offers st))).

Definition nameExists (n : string) (excludeId : field Z) : async bool :=
  let! count := db_execute (query (count_name n excludeId)) in
  ret (0 <? count).

End Offer.

(** ** controllers/vehicleOfferController *)

(** What a handler sends: the HTTP status and the [success] and [message]
    properties of the JSON body (its [data] payload is a read of the store
    and is left out). *)
Record response : Type := mkResponse {
  code : Z;
  success : bool;
  message : string
}.

Module VehicleOfferController.

Import VehicleOffer.

(** [a || b] on a property and a column. *)
Definition or_else {A} `{Falsy A} (f : field A) (col : option A) : option A :=
  match or_null f with
  | Some a => Some a
  | None => col
  end.

(** The statistics calls take the vehicle id of the row; with a NULL id
    neither the UPDATE nor the vehicle lookup of [recordVisit] matches a
    row, which is the rejection of [recordVisit]. *)
Definition with_vehicle {A} (vehicleId : option Z) (k : Z -> async A) : async A :=
  match vehicleId with
  | Some v => k v
  | None => throw "Vehicle not found"
  end.

Definition createVehicleOffer (fuel : nat) (body : offerData) : async response :=
  try_catch
    (let status := with_default "active" (data_status body) in
     if not_ (data_vehicle_id body) || not_ (data_offer_id body) then
       ret (mkResponse 400 false "Vehicle ID and Offer ID are required")
     else
       let! hasActiveOffer :=
         hasActiveOffer (to_sql (data_vehicle_id body)) (to_sql (data_offer_id body)) in
       if hasActiveOffer && Offer.strict_eq status "active" then
         ret (mkResponse 400 false "Vehicle already has an active offer of this type")
       else
         let offerData :=
           mkOfferData (data_vehicle_id body) (data_offer_id body)
             (data_earned_on_visit_id body) (data_issued_date body)
             (data_used_date body) (data_used_on_visit_id body)
             status (data_notes body) in
         let! vehicleOffer := create offerData in
         await (if Offer.strict_eq status "active"
                   && truthy (data_earned_on_visit_id body) then
                  try_catch
                    (await with_vehicle (to_sql (data_vehicle_id body))
                             (VehicleStats.incrementOffersEarned fuel) ;;
                     ret tt)
                    (fun statsError => ret tt)
                else ret tt) ;;
         ret (mkResponse 201 true "Vehicle offer created successfully"))
    (fun error => ret (mkResponse 500 false "Error creating vehicle offer")).

Definition markOfferAsUsed (fuel : nat) (i : Z)
    (used_on_visit_id : field Z) (notes : field string) : async response :=
  try_catch
    (if not_ used_on_visit_id then
       ret (mkResponse 400 false "Used on visit ID is required")
     else
       let! vehicleOffer := markAsUsed i (to_sql used_on_visit_id) notes in
       await try_catch
               (match vehicleOffer with
                | Some o =>
                    await with_vehicle (vehicle_id (row o))
                            (VehicleStats.incrementOffersUsed fuel) ;;
                    await with_vehicle (vehicle_id (row o))
                            VehicleStats.resetVisitCount ;;
                    ret tt
                | None => throw "Cannot read properties of null"
                end)
               (fun statsError => ret tt) ;;
       ret (mkResponse 200 true "Vehicle offer marked as used successfully"))
    (fun error => ret (mkResponse 500 false "Error marking offer as used")).

Definition markOfferAsExpired (i : Z) (notes : field string) : async response :=
  try_catch
    (let! vehicleOffer := markAsExpired i notes in
     ret (mkResponse 200 true "Vehicle offer marked as expired successfully"))
    (fun error => ret (mkResponse 500 false "Error marking offer as expired")).

(** [Object.keys(updateData).length === 0] *)
Definition no_fields (body : offerData) : bool :=
  negb (provided (data_vehicle_id body) || provided (data_offer_id body)
        || provided (data_earned_on_visit_id body)
        || provided (data_issued_date body) || provided (data_used_date body)
        || provided (data_used_on_visit_id body)
        || provided (data_status body) || provided (data_notes body)).

Definition updateVehicleOffer (i : Z) (body : offerData) : async response :=
  try_catch
    (let! existingOffer := findById i in
     match existingOffer with
     | None => ret (mkResponse 404 false "Vehicle offer not found")
     | Some existingOffer =>
         let! duplicate :=
           (if (truthy (data_vehicle_id body) || truthy (data_offer_id body))
               && Offer.strict_eq (data_status body) "active" then
              let checkVehicleId :=
                or_else (data_vehicle_id body) (vehicle_id (row existingOffer)) in
              let checkOfferId :=
                or_else (data_offer_id body) (offer_id (row existingOffer)) in
              let! hasActiveOffer := hasActiveOffer checkVehicleId checkOfferId in
              ret (hasActiveOffer && negb (id existingOffer =? i))
            else ret false) in
         if duplicate then
           ret (mkResponse 400 false "Vehicle already has an active offer of this type")
         else if no_fields body then
           ret (mkResponse 400 false "No fields to update")
         else
           let! updatedOffer := update i body in
           ret (mkResponse 200 true "Vehicle offer updated successfully")
     end)
    (fun error => ret (mkResponse 500 false "Error updating vehicle offer")).

Definition bulkExpireOffers : async response :=
  try_catch
    (let! expiredCount := expireOffers in
     ret (mkResponse 200 true
            ("Successfully expired " +:+ digits expiredCount +:+ " offers")))
    (fun error => ret (mkResponse 500 false "Error bulk expiring offers")).

Definition deleteVehicleOffer (i : Z) : async response :=
  try_catch
    (let! existingOffer := findById i in
     match existingOffer with
     | None => ret (mkResponse 404 false "Vehicle offer not found")
     | Some _ =>
         let! deleted := delete i in
         ret (mkResponse 200 true "Vehicle offer deleted successfully")
     end)
    (fun error => ret (mkResponse 500 false "Error deleting vehicle offer")).

(** [Array.prototype.slice(start, end)] on integer arguments: a negative
    index counts from the end, and both are clamped to the array. *)
Definition relative_index (len i : Z) : Z :=
  if i <? 0 then Z.max (len + i) 0 else Z.min i len.

Definition slice {A} (l : list A) (start end_ : Z) : list A :=
  let len := Z.of_nat (length l) in
  let k := relative_index len start in
  let final := relative_index len end_ in
  take (Z.to_nat (final - k)) (drop (Z.to_nat k) l).

(** [Math.ceil(length / limit)] as it reaches the JSON body: a division by
    zero gives Infinity or NaN, which is serialised as null. *)
Definition ceil_div (n limit : Z) : option Z :=
  if limit =? 0 then None else Some (- ((- n) / limit)).

(** The pagination block of the list handlers (getAllVehicleOffers,
    getOffersByLicensePlate, getOffersExpiringSoon): the page of the rows
    and the [pagination] object, for integer [page] and [limit]. *)
Record page_of (A : Type) : Type := mkPage {
  data : list A;
  current_page : Z;
  total_pages : option Z;
  total_offers : Z;
  has_next : bool;
  has_prev : bool
}.
Arguments mkPage {A}.
Arguments data {A}.
Arguments current_page {A}.
Arguments total_pages {A}.
Arguments total_offers {A}.
Arguments has_next {A}.
Arguments has_prev {A}.

Definition paginate {A} (rows : list A) (page limit : Z) : page_of A :=
  let startIndex := (page - 1) * limit in
  let endIndex := page * limit in
  mkPage (slice rows startIndex endIndex)
         page
         (ceil_div (Z.of_nat (length rows)) limit)
         (Z.of_nat (length rows))
         (endIndex <? Z.of_nat (length rows))
         (1 <? page).

End VehicleOfferController.

(** ** JavaScript strings and numbers in the id helpers *)

(** [n.toString()] for an integer. *)
Definition toString (n : Z) : string :=
  if n <? 0 then "-" +:+ digits (- n) else digits n.

Fixpoint zeros (k : nat) : string :=
  match k with
  | O => EmptyString
  | S k' => String "0"%char (zeros k')
  end.

(** [s.padStart(targetLength, '0')] *)
Definition padStart (targetLength : nat) (s : string) : string :=
  zeros (targetLength - String.length s) +:+ s.

(** [s.substring(a, b)] and [s.slice(a, b)] for 0 <= a <= b. *)
Definition substring (a b : nat) (s : string) : string :=
  String.substring a (b - a) s.

(** The value of a digit or letter as a digit of a radix up to 36. *)
Definition digit_value (c : ascii) : option Z :=
  let n := Z.of_nat (nat_of_ascii c) in
  if (48 <=? n) && (n <=? 57) then Some (n - 48)
  else if (97 <=? n) && (n <=? 122) then Some (n - 87)
  else if (65 <=? n) && (n <=? 90) then Some (n - 55)
  else None.

(** The longest prefix of digits of the radix, as a number; [acc] is the
    value read so far, [None] while no digit has been read. *)
Fixpoint parse_digits (radix : Z) (acc : option Z) (s : string) : option Z :=
  match s with
  | EmptyString => acc
  | String c s' =>
      match digit_value c with
      | Some d =>
          if d <? radix
          then parse_digits radix (Some (default 0 acc * radix + d)) s'
          else acc
      | None => acc
      end
  end.

Definition is_white_space (c : ascii) : bool :=
  let n := nat_of_ascii c in
  (n =? 32)%nat || ((9 <=? n)%nat && (n <=? 13)%nat).

Fixpoint trim_start (s : string) : string :=
  match s with
  | String c s' => if is_white_space c then trim_start s' else s
  | EmptyString => EmptyString
  end.

(** [parseInt(s)] without a radix, on ASCII input: leading white space, a
    sign, a 0x prefix for hexadecimal, then the digits; [None] is NaN. *)
Definition parseInt (s : string) : option Z :=
  let s1 := trim_start s in
  let '(sign, s2) :=
    match s1 with
    | String "-"%char r => (-1, r)
    | String "+"%char r => (1, r)
    | _ => (1, s1)
    end in
  let '(radix, s3) :=
    match s2 with
    | String "0"%char (String "x"%char r) => (16, r)
    | String "0"%char (String "X"%char r) => (16, r)
    | _ => (10, s2)
    end in
  Z.mul sign <$> parse_digits radix None s3.

(** What the id helpers read off a Date: the local-time getters. *)
Record jsDate : Type := mkJsDate {
  getFullYear : Z;
  getMonth : Z;
  getDate : Z;
  getHours : Z;
  getMinutes : Z;
  getSeconds : Z;
  getMilliseconds : Z
}.

(** The numeric properties of the object [parseId] returns (its [date]
    property, a Date built from the same substrings, is left out). *)
Record parsedId : Type := mkParsedId {
  parsed_year : option Z;
  parsed_month : option Z;
  parsed_day : option Z;
  parsed_hours : option Z;
  parsed_minutes : option Z;
  parsed_seconds : option Z;
  parsed_milliseconds : option Z
}.

(** ** models/AttendantService and models/CarRegistry: ids *)

Module AttendantService.

(** [generateId()], with [now] the Date it creates. *)
Definition generateId (now : jsDate) : string :=
  let year := toString (getFullYear now) in
  let month := padStart 2 (toString (getMonth now + 1)) in
  let day := padStart 2 (toString (getDate now)) in
  let hours := padStart 2 (toString (getHours now)) in
  let minutes := padStart 2 (toString (getMinutes now)) in
  let seconds := padStart 2 (toString (getSeconds now)) in
  let millis := padStart 3 (toString (getMilliseconds now / 10)) in
  substring 0 15
    (year +:+ month +:+ day +:+ hours +:+ minutes +:+ seconds +:+ millis).

(** [parseId(id)]: [inl] is the message of the Error it throws. *)
Definition parseId (id : string) : string + parsedId :=
  if negb (String.length id =? 15)%nat then
    inl "Invalid ID format. Expected yyyddmmhhMMsss"
  else
    let year := "20" +:+ substring 0 2 id in
    let day := substring 2 4 id in
    let month := substring 4 6 id in
    let hours := substring 6 8 id in
    let minutes := substring 8 10 id in
    let seconds := substring 10 12 id in
    let milliseconds := substring 12 15 id in
    inr (mkParsedId (parseInt year) (parseInt month) (parseInt day)
                    (parseInt hours) (parseInt minutes) (parseInt seconds)
                    (parseInt milliseconds)).

End AttendantService.

Module CarRegistry.

(** The same code as [AttendantService.generateId]. *)
Definition generateId (now : jsDate) : string :=
  let year := toString (getFullYear now) in
  let month := padStart 2 (toString (getMonth now + 1)) in
  let day := padStart 2 (toString (getDate now)) in
  let hours := padStart 2 (toString (getHours now)) in
  let minutes := padStart 2 (toString (getMinutes now)) in
  let seconds := padStart 2 (toString (getSeconds now)) in
  let millis := padStart 3 (toString (getMilliseconds now / 10)) in
  substring 0 15
    (year +:+ month +:+ day +:+ hours +:+ minutes +:+ seconds +:+ millis).

Definition parseId (id : string) : string + parsedId :=
  if negb (String.length id =? 15)%nat then
    inl "Invalid ID format. Expected yyyddmmhhMMsss"
  else
    let year := substring 0 2 id in
    let day := substring 2 4 id in
    let month := substring 4 6 id in
    let hours := substring 6 8 id in
    let minutes := substring 8 10 id in
    let seconds := substring 10 12 id in
    let milliseconds := substring 12 15 id in
    inr (mkParsedId (parseInt year) (parseInt month) (parseInt day)
                    (parseInt hours) (parseInt minutes) (parseInt seconds)
                    (parseInt milliseconds)).

End CarRegistry.

(** * Predicates, step relations and concrete stores *)

(** ** The visit ledger *)

(** The row the upsert leaves for a vehicle. *)
Definition visited (st : Store) (o : option VehicleStatsRow) : VehicleStatsRow :=
  match o with
  | None => mkStats 1 1 counter_default counter_default
                    (Some (CURRENT_TIMESTAMP st)) None
  | Some r => mkStats (total_visits r + 1) (current_visit_count r + 1)
                      (total_offers_earned r) (total_offers_used r)
                      (Some (CURRENT_TIMESTAMP st))
                      (Some (CURRENT_TIMESTAMP st))
  end.

(** What the ledger keeps true of a row: the lifetime count is not
    negative and bounds the streak. *)
Definition stats_ok (r : VehicleStatsRow) : Prop :=
  0 <= total_visits r /\ current_visit_count r <= total_visits r.

Definition ledger_ok (st : Store) : Prop :=
  forall v r, vehicle_stats st !! v = Some r -> stats_ok r.

(** One step of the system as far as vehicle_stats is concerned: one of the
    five ledger operations, or anything that leaves the table alone (the
    clock advancing, a vehicle registered, a write to another table). *)
Inductive ledger_step : Store -> Store -> Prop :=
  | step_recordVisit st v :
      ledger_step st (fst (VehicleStats.recordVisit v st))
  | step_resetVisitCount st v :
      ledger_step st (fst (VehicleStats.resetVisitCount v st))
  | step_incrementOffersEarned st fuel v :
      ledger_step st (fst (VehicleStats.incrementOffersEarned fuel v st))
  | step_incrementOffersUsed st fuel v :
      ledger_step st (fst (VehicleStats.incrementOffersUsed fuel v st))
  | step_initializeStats st v :
      ledger_step st (fst (VehicleStats.initializeStats v st))
  | step_elsewhere st st' :
      vehicle_stats st' = vehicle_stats st -> ledger_step st st'.

Inductive reachable : Store -> Prop :=
  | reachable_empty st : vehicle_stats st = ∅ -> reachable st
  | reachable_step st st' : reachable st -> ledger_step st st' -> reachable st'.

(** ** The offer lifecycle *)

(** The operations that are transitions of the offer state machine. *)
Inductive transition : Type :=
  | MarkAsUsed (i : Z) (usedOnVisitId : option Z) (notes : field string)
  | MarkAsExpired (i : Z) (notes : field string)
  | ExpireOffers.

Definition run_transition (t : transition) (st : Store) : Store :=
  match t with
  | MarkAsUsed i visit notes => fst (VehicleOffer.markAsUsed i visit notes st)
  | MarkAsExpired i notes => fst (VehicleOffer.markAsExpired i notes st)
  | ExpireOffers => fst (VehicleOffer.expireOffers st)
  end.

(** What an UPDATE with a dynamic SET list leaves in a column, given the
    property of the data object: the supplied value, NULL for [null], and
    the old value when the property is [undefined]. *)
Definition written {A} (property : field A) (old new : option A) : Prop :=
  match property with
  | undefined => new = old
  | null => new = None
  | val a => new = Some a
  end.

(** total_offers_used of a vehicle before its row exists is the column
    default. *)
Definition offers_used (st : Store) (v : Z) : Z :=
  match vehicle_stats st !! v with
  | Some s => total_offers_used s
  | None => counter_default
  end.

(** ** Offer definitions *)

(** A discount value that is missing (absent, null, or the NaN a failed
    parse gives), zero, or negative. *)
Definition missing_or_not_positive (x : field jsnum) : Prop :=
  match x with
  | val (Num q) => (q <= 0)%Q
  | _ => True
  end.

(** ** Concrete stores and request bodies *)

(** POST bodies: ten percent with the value 0; a free wash that names a
    value of 0. *)
Definition percent_zero : Offer.offerData :=
  Offer.mkOfferData (val "Ten percent") undefined (val (Num 5))
                    (val "percentage") (val (Num 0)) undefined undefined undefined.

Definition free_wash_offer : Offer.offerData :=
  Offer.mkOfferData (val "Fifth wash free") undefined (val (Num 5))
                    (val "free_wash") undefined undefined undefined undefined.

Definition noon : timestamp := mkTimestamp (mkDate 2024 5 17) 43200.

(** Vehicle 7 is registered and has no statistics yet. *)
Definition forecourt : Store := mkStore {[7]} ∅ ∅ 1 ∅ 1 noon.

(** The same after its first visit. *)
Definition after_first_visit : Store := fst (VehicleStats.recordVisit 7 forecourt).

Definition active_offer (v o : Z) : VehicleOfferRow :=
  mkVehicleOffer (Some v) (Some o) None (Some noon) None None
                 (Some "active") None None.

(** A free wash after five visits, valid until the day before [noon]. *)
Definition lapsed_offer : OfferRow :=
  mkOffer (Some "Fifth wash free") None (Some (Num 5)) (Some "free_wash")
          (Some (Num 0)) (Some true) None (Some (mkDate 2024 5 16)).

(** Vehicles 1 and 2 each hold an active instance of offer 1. *)
Definition two_holders : Store :=
  mkStore {[1; 2]} ∅ {[1 := active_offer 1 1; 2 := active_offer 2 1]} 3
          {[1 := lapsed_offer]} 2 noon.

(** Vehicle 1 has redeemed its instance at visit 42. *)
Definition redeemed : Store :=
  fst (VehicleOfferController.markOfferAsUsed 2 1 (val 42) undefined two_holders).

Definition used_offer : VehicleOfferRow :=
  mkVehicleOffer (Some 1) (Some 1) None (Some noon) (Some noon) (Some 42)
                 (Some "used") None None.

(** PUT bodies: move the row to vehicle 1 as 'active'; set status back to
    'active'. *)
Definition move_to_vehicle_1 : VehicleOffer.offerData :=
  VehicleOffer.mkOfferData (val 1) undefined undefined undefined undefined
                           undefined (val "active") undefined.

Definition reactivate : VehicleOffer.offerData :=
  VehicleOffer.mkOfferData undefined undefined undefined undefined undefined
                           undefined (val "active") undefined.

(** ** Sequences of visits *)

(** The clock reaching [t]. *)
Definition set_clock (t : timestamp) (st : Store) : Store :=
  mkStore (vehicles st) (vehicle_stats st) (vehicle_offers st)
          (vehicle_offers_auto_increment st) (offers st)
          (offers_auto_increment st) t.

(** One [recordVisit] of the vehicle at each of the given times, in order. *)
Definition visits_at (times : list timestamp) (v : Z) (st : Store) : Store :=
  foldl (fun st t => fst (VehicleStats.recordVisit v (set_clock t st))) st times.

(** The counters of a vehicle, read as the column default while it has no
    row. *)
Definition counter_of (f : VehicleStatsRow -> Z) (st : Store) (v : Z) : Z :=
  match vehicle_stats st !! v with
  | Some s => f s
  | None => counter_default
  end.

(** ** Keys and the active rows of a pair *)

(** The AUTO_INCREMENT counters point at ids that are not taken. *)
Definition fresh_vehicle_offer_id (st : Store) : Prop :=
  vehicle_offers st !! vehicle_offers_auto_increment st = None.

(** At most one 'active' row for each (vehicle_id, offer_id). *)
Definition unique_active (st : Store) : Prop :=
  forall v o i j ri rj,
    vehicle_offers st !! i = Some ri ->
    vehicle_offers st !! j = Some rj ->
    VehicleOffer.active_for (Some v) (Some o) ri = true ->
    VehicleOffer.active_for (Some v) (Some o) rj = true ->
    i = j.

(** The row [VehicleOffer.create] inserts for a data object. *)
Definition created_offer (d : VehicleOffer.offerData) (st : Store) : VehicleOfferRow :=
  mkVehicleOffer
    (to_sql (VehicleOffer.data_vehicle_id d))
    (to_sql (VehicleOffer.data_offer_id d))
    (or_null (VehicleOffer.data_earned_on_visit_id d))
    (Some (default (CURRENT_TIMESTAMP st) (or_null (VehicleOffer.data_issued_date d))))
    (or_null (VehicleOffer.data_used_date d))
    (or_null (VehicleOffer.data_used_on_visit_id d))
    (to_sql (with_default "active" (VehicleOffer.data_status d)))
    (or_null (VehicleOffer.data_notes d))
    None.

(** ** Requests to the vehicle offer handlers *)

Inductive request : Type :=
  | CreateVehicleOffer (fuel : nat) (body : VehicleOffer.offerData)
  | MarkOfferAsUsed (fuel : nat) (i : Z) (used_on_visit_id : field Z)
                    (notes : field string)
  | MarkOfferAsExpired (i : Z) (notes : field string)
  | UpdateVehicleOffer (i : Z) (body : VehicleOffer.offerData)
  | DeleteVehicleOffer (i : Z)
  | BulkExpireOffers.

Definition handle (q : request) : async response :=
  match q with
  | CreateVehicleOffer fuel body =>
      VehicleOfferController.createVehicleOffer fuel body
  | MarkOfferAsUsed fuel i used_on_visit_id notes =>
      VehicleOfferController.markOfferAsUsed fuel i used_on_visit_id notes
  | MarkOfferAsExpired i notes =>
      VehicleOfferController.markOfferAsExpired i notes
  | UpdateVehicleOffer i body =>
      VehicleOfferController.updateVehicleOffer i body
  | DeleteVehicleOffer i =>
      VehicleOfferController.deleteVehicleOffer i
  | BulkExpireOffers =>
      VehicleOfferController.bulkExpireOffers
  end.

(** What the create handler does after its checks: the counter of offers
    earned, when the offer is active and names the visit that earned it. *)
Definition count_earned (fuel : nat) (body : VehicleOffer.offerData) : async unit :=
  if Offer.strict_eq (with_default "active" (VehicleOffer.data_status body)) "active"
     && truthy (VehicleOffer.data_earned_on_visit_id body)
  then try_catch
         (await VehicleOfferController.with_vehicle (to_sql (VehicleOffer.data_vehicle_id body))
                  (VehicleStats.incrementOffersEarned fuel) ;;
          ret tt)
         (fun statsError => ret tt)
  else ret tt.

(** The create handler in the two parts its awaits divide it into. The
    first runs up to the answer of [hasActiveOffer] and gives the response
    sent there, or [None] when the handler goes on; the second runs from
    [VehicleOffer.create] on. Both are inside the handler's try block. *)
Definition createVehicleOffer_checks (body : VehicleOffer.offerData)
    : async (option response) :=
  try_catch
    (let status := with_default "active" (VehicleOffer.data_status body) in
     if not_ (VehicleOffer.data_vehicle_id body)
        || not_ (VehicleOffer.data_offer_id body) then
       ret (Some (mkResponse 400 false "Vehicle ID and Offer ID are required"))
     else
       let! hasActiveOffer :=
         VehicleOffer.hasActiveOffer (to_sql (VehicleOffer.data_vehicle_id body))
                                     (to_sql (VehicleOffer.data_offer_id body)) in
       if hasActiveOffer && Offer.strict_eq status "active" then
         ret (Some (mkResponse 400 false
                      "Vehicle already has an active offer of this type"))
       else ret None)
    (fun error => ret (Some (mkResponse 500 false "Error creating vehicle offer"))).

Definition createVehicleOffer_inserts (fuel : nat) (body : VehicleOffer.offerData)
    : async response :=
  try_catch
    (let status := with_default "active" (VehicleOffer.data_status body) in
     let! vehicleOffer :=
       VehicleOffer.create
         (VehicleOffer.mkOfferData
            (VehicleOffer.data_vehicle_id body) (VehicleOffer.data_offer_id body)
            (VehicleOffer.data_earned_on_visit_id body)
            (VehicleOffer.data_issued_date body)
            (VehicleOffer.data_used_date body)
            (VehicleOffer.data_used_on_visit_id body)
            status (VehicleOffer.data_notes body)) in
     await count_earned fuel body ;;
     ret (mkResponse 201 true "Vehicle offer created successfully"))
    (fun error => ret (mkResponse 500 false "Error creating vehicle offer")).

(** A handler past its check: it has answered, or it runs its second
    part. *)
Definition resume (checked : option response) (rest : async response)
    : async response :=
  match checked with
  | Some sent => ret sent
  | None => rest
  end.

(** One request served on its own. *)
Definition createVehicleOffer_alone (fuel : nat) (body : VehicleOffer.offerData)
    : async response :=
  let! checked := createVehicleOffer_checks body in
  resume checked (createVehicleOffer_inserts fuel body).

(** Two requests served concurrently, on the schedule in which the check
    of each is answered before the insert of either is sent. *)
Definition createVehicleOffer_concurrently (fuel : nat)
    (first second : VehicleOffer.offerData) : async (response * response) :=
  let! checked1 := createVehicleOffer_checks first in
  let! checked2 := createVehicleOffer_checks second in
  let! sent1 := resume checked1 (createVehicleOffer_inserts fuel first) in
  let! sent2 := resume checked2 (createVehicleOffer_inserts fuel second) in
  ret (sent1, sent2).

(** Two 'active' rows of one (vehicle_id, offer_id). *)
Definition duplicate_active (v o : Z) (st : Store) : Prop :=
  exists i j ri rj,
    i <> j
    /\ vehicle_offers st !! i = Some ri
    /\ vehicle_offers st !! j = Some rj
    /\ VehicleOffer.active_for (Some v) (Some o) ri = true
    /\ VehicleOffer.active_for (Some v) (Some o) rj = true.

(** What the redemption handler does after [markAsUsed]: the counter of
    offers used and the reset of the streak, failures swallowed. *)
Definition count_used (fuel : nat) (vehicleOffer : option VehicleOffer.found)
    : async unit :=
  try_catch
    (match vehicleOffer with
     | Some o =>
         await VehicleOfferController.with_vehicle
                 (vehicle_id (VehicleOffer.row o))
                 (VehicleStats.incrementOffersUsed fuel) ;;
         await VehicleOfferController.with_vehicle
                 (vehicle_id (VehicleOffer.row o))
                 VehicleStats.resetVisitCount ;;
         ret tt
     | None => throw "Cannot read properties of null"
     end)
    (fun statsError => ret tt).

(** A Date whose getters are in their ranges, with a four-digit year. *)
Definition in_range (now : jsDate) : Prop :=
  1000 <= getFullYear now <= 9999
  /\ 0 <= getMonth now <= 11
  /\ 1 <= getDate now <= 31
  /\ 0 <= getHours now <= 23
  /\ 0 <= getMinutes now <= 59
  /\ 0 <= getSeconds now <= 59
  /\ 0 <= getMilliseconds now <= 999.

(** Checks of the pieces of an id, run over the range of a getter. *)
Definition year_piece_ok (y : Z) : bool :=
  match toString y with
  | String c1 (String c2 (String c3 (String c4 EmptyString))) =>
      bool_decide (parseInt (String c1 (String c2 EmptyString)) = Some (y / 100))
      && bool_decide (parseInt ("20" +:+ String c1 (String c2 EmptyString))
                      = Some (2000 + y / 100))
      && bool_decide (parseInt (String c3 (String c4 EmptyString)) = Some (y mod 100))
  | _ => false
  end.

Definition two_digit_piece_ok (n : Z) : bool :=
  match padStart 2 (toString n) with
  | String c1 (String c2 EmptyString) =>
      bool_decide (parseInt (String c1 (String c2 EmptyString)) = Some n)
      && bool_decide (parseInt (String c1 (String c2 (String "0"%char EmptyString)))
                      = Some (n * 10))
  | _ => false
  end.

Definition millis_piece_ok (ms : Z) : bool :=
  match padStart 3 (toString (ms / 10)) with
  | String c1 (String _ (String _ EmptyString)) => bool_decide (c1 = "0"%char)
  | _ => false
  end.

(** ** More concrete stores and requests *)

(** POST body: offer 1 for vehicle 7, earned at visit 42. *)
Definition earned_by_vehicle_7 : VehicleOffer.offerData :=
  VehicleOffer.mkOfferData (val 7) (val 1) (val 42) undefined undefined
                           undefined undefined undefined.

(** POST bodies: offer 1 once more for vehicle 1, which holds it; offer 2
    for vehicle 1, which does not. *)
Definition another_for_vehicle_1 : VehicleOffer.offerData :=
  VehicleOffer.mkOfferData (val 1) (val 1) undefined undefined undefined
                           undefined undefined undefined.

Definition offer_2_for_vehicle_1 : VehicleOffer.offerData :=
  VehicleOffer.mkOfferData (val 1) (val 2) undefined undefined undefined
                           undefined undefined undefined.

(** POST body of an offer that passes every check of [Offer.create]. *)
Definition ten_percent : Offer.offerData :=
  Offer.mkOfferData (val "Ten percent") undefined (val (Num 5))
                    (val "percentage") (val (Num 10)) undefined undefined undefined.

(** An active offer whose vehicle 9 is in no table. *)
Definition orphan_holder : Store :=
  mkStore ∅ ∅ {[1 := active_offer 9 1]} 2 ∅ 1 noon.

(** Three afternoons. *)
Definition three_times : list timestamp :=
  [mkTimestamp (mkDate 2024 5 18) 50000; mkTimestamp (mkDate 2024 5 19) 50000].

Definition third_time : timestamp := mkTimestamp (mkDate 2024 5 20) 50000.

(** 17 May 2024, 09:05:03.987 local time. *)
Definition a_morning : jsDate := mkJsDate 2024 4 17 9 5 3 987.

(** * Properties *)

(** ** The visit ledger *)

Section VisitLedger.

Import VehicleStats.

Implicit Types (st : Store) (vehicleId : Z) (r : VehicleStatsRow).

Lemma upsert_visit_store st vehicleId :
  fst (upsert_visit vehicleId st) =
  set_vehicle_stats
    (<[vehicleId := visited st (vehicle_stats st !! vehicleId)]> (vehicle_stats st)) st.
Proof. unfold upsert_visit. by destruct (vehicle_stats st !! vehicleId). Qed.

Lemma recordVisit_known st vehicleId :
  vehicleId ∈ vehicles st ->
  recordVisit vehicleId st =
    (fst (upsert_visit vehicleId st),
     Resolved (Some (visited st (vehicle_stats st !! vehicleId)))).
Proof.
  intros Hin. unfold recordVisit, bind, query, execute, select_vehicle.
  rewrite decide_True by done. simpl.
  pose proof (upsert_visit_store st vehicleId) as Hst.
  destruct (upsert_visit vehicleId st) as [st' n]. simpl in *. subst st'.
  unfold findByVehicleId, query. simpl. by rewrite lookup_insert_eq.
Qed.

Lemma recordVisit_unknown st vehicleId :
  vehicleId ∉ vehicles st ->
  recordVisit vehicleId st = (st, Rejected "Vehicle not found").
Proof.
  intros Hin. unfold recordVisit, bind, query, select_vehicle.
  by rewrite decide_False.
Qed.

Lemma update_where_vehicle_absent f st vehicleId :
  vehicle_stats st !! vehicleId = None ->
  update_where_vehicle f vehicleId st = (st, 0).
Proof. intros H. unfold update_where_vehicle. by rewrite H. Qed.

Lemma update_where_vehicle_present f st vehicleId r :
  vehicle_stats st !! vehicleId = Some r ->
  update_where_vehicle f vehicleId st =
    (set_vehicle_stats (<[vehicleId := f st r]> (vehicle_stats st)) st, 1).
Proof. intros H. unfold update_where_vehicle. by rewrite H. Qed.

(** With the row in place, one round of either increment is enough. *)
Lemma incrementOffersEarned_present fuel st vehicleId r :
  vehicle_stats st !! vehicleId = Some r ->
  let r' := mkStats (total_visits r) (current_visit_count r)
                    (total_offers_earned r + 1) (total_offers_used r)
                    (last_visit_date r) (Some (CURRENT_TIMESTAMP st)) in
  incrementOffersEarned (S fuel) vehicleId st =
    (set_vehicle_stats (<[vehicleId := r']> (vehicle_stats st)) st,
     Resolved (Some r')).
Proof.
  intros H. simpl. unfold bind, execute.
  rewrite (update_where_vehicle_present _ _ _ _ H). simpl.
  unfold findByVehicleId, query. simpl. by rewrite lookup_insert_eq.
Qed.

Lemma incrementOffersUsed_present fuel st vehicleId r :
  vehicle_stats st !! vehicleId = Some r ->
  let r' := mkStats (total_visits r) (current_visit_count r)
                    (total_offers_earned r) (total_offers_used r + 1)
                    (last_visit_date r) (Some (CURRENT_TIMESTAMP st)) in
  incrementOffersUsed (S fuel) vehicleId st =
    (set_vehicle_stats (<[vehicleId := r']> (vehicle_stats st)) st,
     Resolved (Some r')).
Proof.
  intros H. simpl. unfold bind, execute.
  rewrite (update_where_vehicle_present _ _ _ _ H). simpl.
  unfold findByVehicleId, query. simpl. by rewrite lookup_insert_eq.
Qed.

(** Without the row, either increment first goes through [recordVisit]. *)
Lemma incrementOffersEarned_absent fuel st vehicleId :
  vehicle_stats st !! vehicleId = None ->
  incrementOffersEarned (S fuel) vehicleId st =
    (await recordVisit vehicleId ;; incrementOffersEarned fuel vehicleId) st.
Proof.
  intros H. simpl. unfold bind at 1. unfold execute.
  by rewrite (update_where_vehicle_absent _ _ _ H).
Qed.

Lemma incrementOffersUsed_absent fuel st vehicleId :
  vehicle_stats st !! vehicleId = None ->
  incrementOffersUsed (S fuel) vehicleId st =
    (await recordVisit vehicleId ;; incrementOffersUsed fuel vehicleId) st.
Proof.
  intros H. simpl. unfold bind at 1. unfold execute.
  by rewrite (update_where_vehicle_absent _ _ _ H).
Qed.

(** Without the row and with the vehicle registered, two rounds. *)
Lemma incrementOffersEarned_autocreate fuel st vehicleId :
  vehicleId ∈ vehicles st ->
  vehicle_stats st !! vehicleId = None ->
  let now := CURRENT_TIMESTAMP st in
  let earned := mkStats 1 1 1 0 (Some now) (Some now) in
  incrementOffersEarned (S (S fuel)) vehicleId st
    = (set_vehicle_stats (<[vehicleId := earned]> (vehicle_stats st)) st,
       Resolved (Some earned)).
Proof.
  intros Hin Habsent now earned.
  rewrite incrementOffersEarned_absent by done.
  unfold bind. rewrite recordVisit_known by done.
  rewrite upsert_visit_store, Habsent.
  erewrite incrementOffersEarned_present by apply lookup_insert_eq.
  simpl. unfold set_vehicle_stats. simpl. by rewrite insert_insert_eq.
Qed.

Lemma incrementOffersUsed_autocreate fuel st vehicleId :
  vehicleId ∈ vehicles st ->
  vehicle_stats st !! vehicleId = None ->
  let now := CURRENT_TIMESTAMP st in
  let used := mkStats 1 1 0 1 (Some now) (Some now) in
  incrementOffersUsed (S (S fuel)) vehicleId st
    = (set_vehicle_stats (<[vehicleId := used]> (vehicle_stats st)) st,
       Resolved (Some used)).
Proof.
  intros Hin Habsent now used.
  rewrite incrementOffersUsed_absent by done.
  unfold bind. rewrite recordVisit_known by done.
  rewrite upsert_visit_store, Habsent.
  erewrite incrementOffersUsed_present by apply lookup_insert_eq.
  simpl. unfold set_vehicle_stats. simpl. by rewrite insert_insert_eq.
Qed.

End VisitLedger.

Section VisitLedgerClaims.

Import VehicleStats.

Implicit Types (st : Store) (vehicleId : Z) (r : VehicleStatsRow).

(** C5. For a vehicle of the vehicles table, [recordVisit] resolves, and
    its whole effect on the store is the one upsert statement: an existing
    row has total_visits and current_visit_count each increased by exactly
    1 (the offer counters kept), a missing row is created with both
    counters equal to 1, last_visit_date is the current time in either
    case, and no other row or table changes. *)
Theorem recordVisit_upserts_counters st vehicleId :
  vehicleId ∈ vehicles st ->
  exists st' r',
    recordVisit vehicleId st = (st', Resolved (Some r'))
    /\ st' = fst (upsert_visit vehicleId st)
    /\ vehicle_stats st' !! vehicleId = Some r'
    /\ last_visit_date r' = Some (CURRENT_TIMESTAMP st)
    /\ (forall r, vehicle_stats st !! vehicleId = Some r ->
          total_visits r' = total_visits r + 1
          /\ current_visit_count r' = current_visit_count r + 1
          /\ total_offers_earned r' = total_offers_earned r
          /\ total_offers_used r' = total_offers_used r)
    /\ (vehicle_stats st !! vehicleId = None ->
          total_visits r' = 1 /\ current_visit_count r' = 1)
    /\ (forall v, v ≠ vehicleId -> vehicle_stats st' !! v = vehicle_stats st !! v)
    /\ vehicle_offers st' = vehicle_offers st
    /\ offers st' = offers st
    /\ vehicles st' = vehicles st.
Proof.
  intros Hin.
  exists (fst (upsert_visit vehicleId st)),
         (visited st (vehicle_stats st !! vehicleId)).
  split; [by apply recordVisit_known |].
  split; [done |].
  rewrite upsert_visit_store. simpl.
  split; [by rewrite lookup_insert_eq |].
  split; [by destruct (vehicle_stats st !! vehicleId) |].
  split; [by intros r -> |].
  split; [by intros -> |].
  split; [| done].
  intros v Hv. by rewrite lookup_insert_ne.
Qed.

(** C10. [recordVisit] on an id with no row in vehicles rejects with
    'Vehicle not found' and leaves the store as it was; so, when the
    vehicle has no vehicle_stats row either, the fallback of both
    increments rejects in the same way and creates no row. *)
Theorem recordVisit_requires_vehicle st vehicleId :
  vehicleId ∉ vehicles st ->
  recordVisit vehicleId st = (st, Rejected "Vehicle not found")
  /\ (vehicle_stats st !! vehicleId = None ->
      forall fuel,
        incrementOffersEarned (S fuel) vehicleId st
          = (st, Rejected "Vehicle not found")
        /\ incrementOffersUsed (S fuel) vehicleId st
          = (st, Rejected "Vehicle not found")).
Proof.
  intros Hnot. split; [by apply recordVisit_unknown |].
  intros Habsent fuel.
  rewrite incrementOffersEarned_absent, incrementOffersUsed_absent by done.
  unfold bind. by rewrite recordVisit_unknown.
Qed.

(** C8, as the code has it. For a vehicle of the vehicles table that has
    no vehicle_stats row, each increment creates the row through
    [recordVisit] and then increments its own counter: afterwards the row
    has total_visits = 1, current_visit_count = 1, the incremented
    counter equal to 1 and the other offers counter 0. *)
Theorem incrementOffers_autocreate_by_visit st vehicleId fuel :
  vehicleId ∈ vehicles st ->
  vehicle_stats st !! vehicleId = None ->
  let now := CURRENT_TIMESTAMP st in
  let earned := mkStats 1 1 1 0 (Some now) (Some now) in
  let used := mkStats 1 1 0 1 (Some now) (Some now) in
  incrementOffersEarned (S (S fuel)) vehicleId st
    = (set_vehicle_stats (<[vehicleId := earned]> (vehicle_stats st)) st,
       Resolved (Some earned))
  /\ incrementOffersUsed (S (S fuel)) vehicleId st
    = (set_vehicle_stats (<[vehicleId := used]> (vehicle_stats st)) st,
       Resolved (Some used)).
Proof.
  intros Hin Habsent now earned used. split.
  - by apply incrementOffersEarned_autocreate.
  - by apply incrementOffersUsed_autocreate.
Qed.

End VisitLedgerClaims.

(** ** The bound of the streak by the lifetime count *)

Section VisitBound.

Import VehicleStats.

Implicit Types (st : Store) (v : Z) (r : VehicleStatsRow).

Lemma ledger_ok_insert st v r :
  ledger_ok st -> stats_ok r ->
  ledger_ok (set_vehicle_stats (<[v := r]> (vehicle_stats st)) st).
Proof.
  intros Hst Hr v' r'. simpl. rewrite lookup_insert.
  case_decide; [by intros [= <-] | apply Hst].
Qed.

Lemma ledger_ok_update f st v :
  (forall r, stats_ok r -> stats_ok (f st r)) ->
  ledger_ok st -> ledger_ok (fst (update_where_vehicle f v st)).
Proof.
  intros Hf Hst. unfold update_where_vehicle.
  destruct (vehicle_stats st !! v) as [r|] eqn:E; [| done].
  simpl. apply ledger_ok_insert; [done |]. apply Hf. by apply (Hst v).
Qed.

Lemma ledger_ok_recordVisit st v :
  ledger_ok st -> ledger_ok (fst (recordVisit v st)).
Proof.
  intros Hst. destruct (decide (v ∈ vehicles st)) as [Hin | Hnot].
  - rewrite recordVisit_known by done. simpl. rewrite upsert_visit_store.
    apply ledger_ok_insert; [done |].
    destruct (vehicle_stats st !! v) as [r|] eqn:E; unfold stats_ok; simpl.
    + destruct (Hst v r E). lia.
    + lia.
  - by rewrite recordVisit_unknown.
Qed.

Lemma ledger_ok_resetVisitCount st v :
  ledger_ok st -> ledger_ok (fst (resetVisitCount v st)).
Proof.
  intros Hst. unfold resetVisitCount, bind, execute.
  match goal with |- context [update_where_vehicle ?f v st] =>
    pose proof (ledger_ok_update f st v) as Hup;
    destruct (update_where_vehicle f v st) as [st' n] end.
  simpl in *.
  assert (ledger_ok st') as Hst'.
  { apply Hup; [| done]. intros r [H0 _]. unfold stats_ok. simpl. lia. }
  by destruct (n =? 0).
Qed.

Lemma ledger_ok_incrementOffersEarned fuel st v :
  ledger_ok st -> ledger_ok (fst (incrementOffersEarned fuel v st)).
Proof.
  revert st. induction fuel as [| fuel IH]; intros st Hst; [done |].
  destruct (vehicle_stats st !! v) as [r|] eqn:E.
  - rewrite (incrementOffersEarned_present _ _ _ _ E). simpl.
    apply ledger_ok_insert; [done |]. apply (Hst v r E).
  - rewrite incrementOffersEarned_absent by done. unfold bind.
    pose proof (ledger_ok_recordVisit st v Hst) as Hrec.
    destruct (recordVisit v st) as [st' [a | e |]]; simpl in *; auto.
Qed.

Lemma ledger_ok_incrementOffersUsed fuel st v :
  ledger_ok st -> ledger_ok (fst (incrementOffersUsed fuel v st)).
Proof.
  revert st. induction fuel as [| fuel IH]; intros st Hst; [done |].
  destruct (vehicle_stats st !! v) as [r|] eqn:E.
  - rewrite (incrementOffersUsed_present _ _ _ _ E). simpl.
    apply ledger_ok_insert; [done |]. apply (Hst v r E).
  - rewrite incrementOffersUsed_absent by done. unfold bind.
    pose proof (ledger_ok_recordVisit st v Hst) as Hrec.
    destruct (recordVisit v st) as [st' [a | e |]]; simpl in *; auto.
Qed.

Lemma ledger_ok_initializeStats st v :
  ledger_ok st -> ledger_ok (fst (initializeStats v st)).
Proof.
  intros Hst. unfold initializeStats, bind, findByVehicleId, query.
  destruct (vehicle_stats st !! v) as [r|] eqn:E; [done |].
  simpl. apply ledger_ok_insert; [done |]. unfold stats_ok. simpl. lia.
Qed.

Lemma ledger_ok_step st st' :
  ledger_step st st' -> ledger_ok st -> ledger_ok st'.
Proof.
  destruct 1 as [st v | st v | st fuel v | st fuel v | st v | st st' Heq];
    intros Hst.
  - by apply ledger_ok_recordVisit.
  - by apply ledger_ok_resetVisitCount.
  - by apply ledger_ok_incrementOffersEarned.
  - by apply ledger_ok_incrementOffersUsed.
  - by apply ledger_ok_initializeStats.
  - intros v r. rewrite Heq. apply Hst.
Qed.

Lemma reachable_ledger_ok st : reachable st -> ledger_ok st.
Proof.
  induction 1 as [st Hempty | st st' _ IH Hstep].
  - intros v r. by rewrite Hempty, lookup_empty.
  - by apply (ledger_ok_step st).
Qed.

(** C7, as the code has it. In every state reached from an empty
    vehicle_stats table through recordVisit, resetVisitCount,
    incrementOffersEarned, incrementOffersUsed and initializeStats (and
    steps that do not write the table), every row has
    current_visit_count <= total_visits, and each further step of these
    operations keeps it so; the manual adjustment [updateStats] is not
    among the steps. *)
Theorem visit_count_bounded st :
  reachable st ->
  (forall v r, vehicle_stats st !! v = Some r ->
     current_visit_count r <= total_visits r)
  /\ (forall st', ledger_step st st' ->
       forall v r, vehicle_stats st' !! v = Some r ->
         current_visit_count r <= total_visits r).
Proof.
  intros Hreach. split.
  - intros v r Hr. by destruct (reachable_ledger_ok st Hreach v r Hr).
  - intros st' Hstep v r Hr.
    assert (ledger_ok st') as Hok.
    { apply (ledger_ok_step st); [done |]. by apply reachable_ledger_ok. }
    by destruct (Hok v r Hr).
Qed.

End VisitBound.

(** ** The ledger on concrete stores *)

Section VisitLedgerExamples.

Import VehicleStats.

Lemma forecourt_vehicle : 7 ∈ vehicles forecourt.
Proof. unfold forecourt. simpl. set_solver. Defined.

Lemma forecourt_stranger : 8 ∉ vehicles forecourt.
Proof. unfold forecourt. simpl. set_solver. Defined.

Lemma recordVisit_first_visit :
  7 ∈ vehicles forecourt
  /\ exists st' r',
       recordVisit 7 forecourt = (st', Resolved (Some r'))
       /\ total_visits r' = 1 /\ current_visit_count r' = 1
       /\ last_visit_date r' = Some noon.
Proof.
  split; [exact forecourt_vehicle |].
  destruct (recordVisit_upserts_counters forecourt 7 forecourt_vehicle)
    as (st' & r' & Hrun & _ & _ & Hdate & _ & Hnew & _).
  exists st', r'. destruct (Hnew eq_refl) as [Ht Hc].
  repeat split; assumption.
Defined.

Lemma recordVisit_stranger :
  (8 ∉ vehicles forecourt)
  /\ recordVisit 8 forecourt = (forecourt, Rejected "Vehicle not found")
  /\ incrementOffersEarned 2 8 forecourt = (forecourt, Rejected "Vehicle not found")
  /\ incrementOffersUsed 2 8 forecourt = (forecourt, Rejected "Vehicle not found").
Proof.
  split; [exact forecourt_stranger |].
  destruct (recordVisit_requires_vehicle forecourt 8 forecourt_stranger)
    as [Hrec Hinc].
  split; [exact Hrec |]. exact (Hinc eq_refl 1%nat).
Defined.

Lemma incrementOffers_on_fresh_vehicle :
  7 ∈ vehicles forecourt /\ vehicle_stats forecourt !! 7 = None
  /\ snd (incrementOffersEarned 2 7 forecourt)
     = Resolved (Some (mkStats 1 1 1 0 (Some noon) (Some noon)))
  /\ snd (incrementOffersUsed 2 7 forecourt)
     = Resolved (Some (mkStats 1 1 0 1 (Some noon) (Some noon))).
Proof.
  split; [exact forecourt_vehicle |]. split; [reflexivity |].
  destruct (incrementOffers_autocreate_by_visit forecourt 7 0
              forecourt_vehicle eq_refl) as [He Hu].
  rewrite He, Hu. split; reflexivity.
Defined.

(** C8 as stated fails: on a registered vehicle without a statistics row
    both increments resolve, and the row they leave has total_visits = 1
    and current_visit_count = 1, not 0. *)
Lemma incrementOffers_autocreate_not_zeroed :
  vehicle_stats forecourt !! 7 = None
  /\ (exists st' r,
        incrementOffersEarned 2 7 forecourt = (st', Resolved (Some r))
        /\ vehicle_stats st' !! 7 = Some r
        /\ total_offers_earned r = 1
        /\ total_visits r <> 0 /\ current_visit_count r <> 0)
  /\ (exists st' r,
        incrementOffersUsed 2 7 forecourt = (st', Resolved (Some r))
        /\ vehicle_stats st' !! 7 = Some r
        /\ total_offers_used r = 1
        /\ total_visits r <> 0 /\ current_visit_count r <> 0).
Proof.
  split; [reflexivity |]. split.
  - exists (fst (incrementOffersEarned 2 7 forecourt)),
           (mkStats 1 1 1 0 (Some noon) (Some noon)).
    repeat split; try (vm_compute; reflexivity); vm_compute; discriminate.
  - exists (fst (incrementOffersUsed 2 7 forecourt)),
           (mkStats 1 1 0 1 (Some noon) (Some noon)).
    repeat split; try (vm_compute; reflexivity); vm_compute; discriminate.
Qed.

Lemma after_first_visit_reachable : reachable after_first_visit.
Proof.
  apply (reachable_step forecourt).
  - apply reachable_empty. reflexivity.
  - apply step_recordVisit.
Defined.

Lemma visit_count_bounded_after_first_visit :
  reachable after_first_visit
  /\ (forall v r, vehicle_stats after_first_visit !! v = Some r ->
        current_visit_count r <= total_visits r)
  /\ (forall v r,
        vehicle_stats (fst (resetVisitCount 7 after_first_visit)) !! v = Some r ->
        current_visit_count r <= total_visits r).
Proof.
  split; [exact after_first_visit_reachable |].
  destruct (visit_count_bounded after_first_visit after_first_visit_reachable)
    as [Hnow Hnext].
  split; [exact Hnow |].
  exact (Hnext _ (step_resetVisitCount after_first_visit 7)).
Defined.

(** C7 as stated fails on [updateStats]: in the reachable state after one
    visit (streak 1, lifetime 1) the manual adjustment to
    current_visit_count = 5 resolves and leaves a row whose streak
    exceeds its lifetime count. *)
Lemma updateStats_breaks_visit_bound :
  reachable after_first_visit
  /\ (forall v r, vehicle_stats after_first_visit !! v = Some r ->
        current_visit_count r <= total_visits r)
  /\ exists st' r',
       updateStats 7 (mkUpdateData None (Some 5) None None) after_first_visit
         = (st', Resolved (Some r'))
       /\ vehicle_stats st' !! 7 = Some r'
       /\ total_visits r' = 1 /\ current_visit_count r' = 5
       /\ ~ current_visit_count r' <= total_visits r'.
Proof.
  split; [exact after_first_visit_reachable |].
  split.
  { intros v r Hr.
    by destruct (reachable_ledger_ok _ after_first_visit_reachable v r Hr). }
  exists (fst (updateStats 7 (mkUpdateData None (Some 5) None None)
                 after_first_visit)),
         (mkStats 1 5 0 0 (Some noon) (Some noon)).
  repeat split; try (vm_compute; reflexivity). simpl. lia.
Qed.

End VisitLedgerExamples.

(** ** The offer lifecycle *)

Section OfferLifecycle.

Import VehicleOffer.

Implicit Types (st : Store) (i : Z) (r : VehicleOfferRow).

Lemma is_status_true s r : is_status s r = true <-> status r = Some s.
Proof.
  unfold is_status, sql_eq. destruct (status r) as [s'|]; [| done].
  rewrite bool_decide_eq_true. naive_solver.
Qed.

Lemma is_status_false s r : is_status s r = false <-> status r <> Some s.
Proof. rewrite <- is_status_true. by destruct (is_status s r). Qed.

Lemma update_where_id_active_inactive f st i r :
  vehicle_offers st !! i = Some r -> status r <> Some "active" ->
  update_where_id_active f i st = (st, 0).
Proof.
  intros Hr Hs. unfold update_where_id_active. rewrite Hr.
  apply is_status_false in Hs. by rewrite Hs.
Qed.

Lemma update_where_id_active_active f st i r :
  vehicle_offers st !! i = Some r -> status r = Some "active" ->
  update_where_id_active f i st =
    (set_vehicle_offers (<[i := f st r]> (vehicle_offers st)) st, 1).
Proof.
  intros Hr Hs. unfold update_where_id_active. rewrite Hr.
  apply is_status_true in Hs. by rewrite Hs.
Qed.

Lemma update_where_id_active_absent f st i :
  vehicle_offers st !! i = None -> update_where_id_active f i st = (st, 0).
Proof. intros Hr. unfold update_where_id_active. by rewrite Hr. Qed.

Lemma markAsUsed_active st i r visit notes :
  vehicle_offers st !! i = Some r -> status r = Some "active" ->
  markAsUsed i visit notes st =
    (set_vehicle_offers (<[i := used_row st visit notes r]> (vehicle_offers st)) st,
     Resolved (Some (i, used_row st visit notes r))).
Proof.
  intros Hr Hs. unfold markAsUsed, bind, execute.
  erewrite update_where_id_active_active by done. simpl.
  unfold findById, query, select_by_id. simpl. by rewrite lookup_insert_eq.
Qed.

Lemma markAsExpired_active st i r notes :
  vehicle_offers st !! i = Some r -> status r = Some "active" ->
  markAsExpired i notes st =
    (set_vehicle_offers (<[i := expired_row notes r]> (vehicle_offers st)) st,
     Resolved (Some (i, expired_row notes r))).
Proof.
  intros Hr Hs. unfold markAsExpired, bind, execute.
  erewrite update_where_id_active_active by done. simpl.
  unfold findById, query, select_by_id. simpl. by rewrite lookup_insert_eq.
Qed.

Lemma markAsUsed_not_active st i visit notes :
  (forall r, vehicle_offers st !! i = Some r -> status r <> Some "active") ->
  markAsUsed i visit notes st =
    (st, Rejected "Vehicle offer not found or not active").
Proof.
  intros Hs. unfold markAsUsed, bind, execute.
  destruct (vehicle_offers st !! i) as [r|] eqn:Hr.
  - by erewrite update_where_id_active_inactive by eauto.
  - by rewrite update_where_id_active_absent.
Qed.

Lemma markAsExpired_not_active st i notes :
  (forall r, vehicle_offers st !! i = Some r -> status r <> Some "active") ->
  markAsExpired i notes st =
    (st, Rejected "Vehicle offer not found or not active").
Proof.
  intros Hs. unfold markAsExpired, bind, execute.
  destruct (vehicle_offers st !! i) as [r|] eqn:Hr.
  - by erewrite update_where_id_active_inactive by eauto.
  - by rewrite update_where_id_active_absent.
Qed.

(** C4. On a VehicleOffer whose status is not 'active', [markAsUsed] and
    [markAsExpired] reject with 'Vehicle offer not found or not active'
    (the conditional UPDATE affects no row), the two handlers answer
    without success, and the store, so the row, is left exactly as it
    was. *)
Theorem mark_rejected_unless_active st i r :
  vehicle_offers st !! i = Some r ->
  status r <> Some "active" ->
  (forall visit notes,
     markAsUsed i visit notes st
       = (st, Rejected "Vehicle offer not found or not active"))
  /\ (forall notes,
     markAsExpired i notes st
       = (st, Rejected "Vehicle offer not found or not active"))
  /\ (forall fuel used_on_visit_id notes,
     exists resp,
       VehicleOfferController.markOfferAsUsed fuel i used_on_visit_id notes st
         = (st, Resolved resp)
       /\ success resp = false)
  /\ (forall notes,
     VehicleOfferController.markOfferAsExpired i notes st
       = (st, Resolved (mkResponse 500 false "Error marking offer as expired"))).
Proof.
  intros Hr Hs.
  assert (forall r', vehicle_offers st !! i = Some r' ->
                     status r' <> Some "active") as Hall.
  { intros r' Hr'. congruence. }
  split; [intros; by apply markAsUsed_not_active |].
  split; [intros; by apply markAsExpired_not_active |].
  split.
  - intros fuel used_on_visit_id notes.
    unfold VehicleOfferController.markOfferAsUsed, try_catch.
    destruct (not_ used_on_visit_id); [by eexists |].
    unfold bind. rewrite markAsUsed_not_active by done. by eexists.
  - intros notes.
    unfold VehicleOfferController.markOfferAsExpired, try_catch, bind.
    by rewrite markAsExpired_not_active.
Qed.

End OfferLifecycle.

(** ** Transitions of the status *)

Section Transitions.

Import VehicleOffer.

Implicit Types (st : Store) (i : Z) (r : VehicleOfferRow).

Lemma stale_active st r d : stale st r = Some d -> status r = Some "active".
Proof.
  unfold stale. destruct (is_status "active" r) eqn:E; [| done].
  intros _. by apply is_status_true.
Qed.

Lemma expire_row_cases st r :
  (stale st r = None /\ expire_row st r = r)
  \/ (exists d, stale st r = Some d
        /\ status r = Some "active"
        /\ expire_row st r =
             mkVehicleOffer (vehicle_id r) (offer_id r) (earned_on_visit_id r)
               (issued_date r) (used_date r) (used_on_visit_id r)
               (Some "expired")
               (Some ("Auto-expired: Offer validity ended on " +:+ date_text d))
               (vo_updated_at r)).
Proof.
  unfold expire_row. destruct (stale st r) as [d|] eqn:E; [right | by left].
  exists d. split; [done |]. split; [by eapply stale_active | done].
Qed.

Lemma expireOffers_store st :
  fst (expireOffers st) =
    set_vehicle_offers (expire_row st <$> vehicle_offers st) st.
Proof. done. Qed.

Lemma assign_written {A} (f : field A) (old : option A) :
  written f old (assign f old).
Proof. by destruct f. Qed.

(** [update] on a row that exists, whatever its status. *)
Lemma update_present st i r (d : offerData) :
  vehicle_offers st !! i = Some r ->
  exists r',
    update i d st
    = (set_vehicle_offers (<[i := r']> (vehicle_offers st)) st,
       Resolved (Some (i, r')))
    /\ written (data_vehicle_id d) (vehicle_id r) (vehicle_id r')
    /\ written (data_offer_id d) (offer_id r) (offer_id r')
    /\ written (data_earned_on_visit_id d) (earned_on_visit_id r)
               (earned_on_visit_id r')
    /\ written (data_issued_date d) (issued_date r) (issued_date r')
    /\ written (data_used_date d) (used_date r) (used_date r')
    /\ written (data_used_on_visit_id d) (used_on_visit_id r)
               (used_on_visit_id r')
    /\ written (data_status d) (status r) (status r')
    /\ written (data_notes d) (notes r) (notes r')
    /\ vo_updated_at r' = Some (CURRENT_TIMESTAMP st).
Proof.
  intros Hr. unfold update, bind, execute, update_where_id. rewrite Hr.
  cbn [Z.eqb]. unfold findById, query, select_by_id.
  cbn [vehicle_offers set_vehicle_offers]. rewrite lookup_insert_eq.
  cbn [mbind option_bind]. eexists. split; [reflexivity |].
  cbn [vehicle_id offer_id earned_on_visit_id issued_date used_date
       used_on_visit_id status notes vo_updated_at].
  repeat split; apply assign_written.
Qed.

(** C2, as the code has it. [markAsUsed], [markAsExpired] and
    [expireOffers] keep every row, change a row only if its status is
    'active', and then leave it 'used' or 'expired': a row that is
    already 'used' or 'expired' keeps every field, notes included. The
    generic [update] is not restricted by the status: on a row in any
    status it resolves, and each of the eight columns takes the supplied
    value (NULL for null), status included, and keeps its value only when
    the property is undefined. *)
Theorem transitions_one_directional st i r :
  vehicle_offers st !! i = Some r ->
  (forall t : transition,
     exists r',
       vehicle_offers (run_transition t st) !! i = Some r'
       /\ (r' = r
           \/ (status r = Some "active"
               /\ (status r' = Some "used" \/ status r' = Some "expired")))
       /\ (status r <> Some "active" -> r' = r))
  /\ (forall d : offerData,
     exists r',
       update i d st
       = (set_vehicle_offers (<[i := r']> (vehicle_offers st)) st,
          Resolved (Some (i, r')))
       /\ written (data_vehicle_id d) (vehicle_id r) (vehicle_id r')
       /\ written (data_offer_id d) (offer_id r) (offer_id r')
       /\ written (data_earned_on_visit_id d) (earned_on_visit_id r)
                  (earned_on_visit_id r')
       /\ written (data_issued_date d) (issued_date r) (issued_date r')
       /\ written (data_used_date d) (used_date r) (used_date r')
       /\ written (data_used_on_visit_id d) (used_on_visit_id r)
                  (used_on_visit_id r')
       /\ written (data_status d) (status r) (status r')
       /\ written (data_notes d) (notes r) (notes r')).
Proof.
  intros Hr.
  split; [intros t | intros d; destruct (update_present st i r d Hr)
                       as (r' & Hrun & Hcols); exists r'; tauto].
  assert (forall (m : gmap Z VehicleOfferRow) r',
            m !! i = Some r' ->
            (r' = r \/ (status r = Some "active"
               /\ (status r' = Some "used" \/ status r' = Some "expired"))) ->
            exists r', m !! i = Some r'
              /\ (r' = r \/ (status r = Some "active"
                   /\ (status r' = Some "used" \/ status r' = Some "expired")))
              /\ (status r <> Some "active" -> r' = r)) as Hpack.
  { intros m r' Hr' Hcase. exists r'. split; [done |]. split; [done |].
    intros Hs. destruct Hcase as [-> | [Ha _]]; [done | by destruct Hs]. }
  destruct t as [j visit notes | j notes |]; simpl.
  - destruct (vehicle_offers st !! j) as [rj|] eqn:Hj.
    + destruct (decide (status rj = Some "active")) as [Ha | Hn].
      * rewrite (markAsUsed_active _ _ _ _ _ Hj Ha). simpl.
        destruct (decide (j = i)) as [-> | Hne].
        -- eapply Hpack; [apply lookup_insert_eq |].
           right. simplify_eq. eauto.
        -- eapply Hpack; [by rewrite lookup_insert_ne | by left].
      * rewrite markAsUsed_not_active by (intros; congruence).
        eapply Hpack; [done | by left].
    + rewrite markAsUsed_not_active by (intros; congruence).
      eapply Hpack; [done | by left].
  - destruct (vehicle_offers st !! j) as [rj|] eqn:Hj.
    + destruct (decide (status rj = Some "active")) as [Ha | Hn].
      * rewrite (markAsExpired_active _ _ _ _ Hj Ha). simpl.
        destruct (decide (j = i)) as [-> | Hne].
        -- eapply Hpack; [apply lookup_insert_eq |].
           right. simplify_eq. eauto.
        -- eapply Hpack; [by rewrite lookup_insert_ne | by left].
      * rewrite markAsExpired_not_active by (intros; congruence).
        eapply Hpack; [done | by left].
    + rewrite markAsExpired_not_active by (intros; congruence).
      eapply Hpack; [done | by left].
  - eapply Hpack; [by rewrite lookup_fmap, Hr |].
    destruct (expire_row_cases st r) as [[_ ->] | (d & _ & Ha & ->)];
      [by left | right; eauto].
Qed.

(** The WHERE clause reads offers and the clock, not vehicle_offers. *)
Lemma stale_set_vehicle_offers m st r :
  stale (set_vehicle_offers m st) r = stale st r.
Proof. done. Qed.

Lemma stale_expire_row st r : stale st (expire_row st r) = None.
Proof. by destruct (expire_row_cases st r) as [[Hn ->] | (d & _ & _ & ->)]. Qed.

Lemma expire_row_idemp st r :
  expire_row st (expire_row st r) = expire_row st r.
Proof. unfold expire_row at 1. by rewrite stale_expire_row. Qed.

Lemma set_vehicle_offers_same st : set_vehicle_offers (vehicle_offers st) st = st.
Proof. by destruct st. Qed.

Lemma sweep_fixed st :
  let st1 := fst (expireOffers st) in
  expire_row st1 <$> vehicle_offers st1 = vehicle_offers st1.
Proof.
  intros st1. subst st1. rewrite expireOffers_store. simpl.
  rewrite <- map_fmap_compose. apply map_fmap_ext. intros i r _.
  apply (expire_row_idemp st).
Qed.

Lemma sweep_leaves_none_stale st :
  let st1 := fst (expireOffers st) in
  size (filter (fun kr => is_Some (stale st1 (snd kr))) (vehicle_offers st1)) = 0%nat.
Proof.
  intros st1. subst st1. rewrite expireOffers_store. simpl.
  apply map_size_empty_iff, map_empty. intros i.
  apply map_lookup_filter_None. right. intros r' Hr'. simpl.
  rewrite lookup_fmap in Hr'.
  destruct (vehicle_offers st !! i) as [r|]; [| done].
  simpl in Hr'. injection Hr' as <-.
  rewrite stale_set_vehicle_offers, stale_expire_row. by intros [? ?].
Qed.

Lemma update_join_expire_again st :
  update_join_expire (fst (expireOffers st)) = (fst (expireOffers st), 0).
Proof.
  unfold update_join_expire at 1.
  rewrite sweep_fixed, sweep_leaves_none_stale, set_vehicle_offers_same.
  done.
Qed.


End Transitions.

(** ** Redemption *)

Section Redemption.

Import VehicleOffer VehicleStats.

Implicit Types (st : Store) (i v : Z) (r : VehicleOfferRow).

Lemma resetVisitCount_present st v s :
  vehicle_stats st !! v = Some s ->
  let s' := mkStats (total_visits s) 0 (total_offers_earned s)
                    (total_offers_used s) (last_visit_date s)
                    (Some (CURRENT_TIMESTAMP st)) in
  resetVisitCount v st =
    (set_vehicle_stats (<[v := s']> (vehicle_stats st)) st, Resolved (Some s')).
Proof.
  intros H. unfold resetVisitCount, bind, execute.
  rewrite (update_where_vehicle_present _ _ _ _ H). simpl.
  unfold findByVehicleId, query. simpl. by rewrite lookup_insert_eq.
Qed.

(** For a registered vehicle, or one that has its row, two rounds of
    [incrementOffersUsed] are enough, and the counter goes up by one. *)
Lemma incrementOffersUsed_resolves fuel st v :
  v ∈ vehicles st \/ is_Some (vehicle_stats st !! v) ->
  exists s,
    incrementOffersUsed (S (S fuel)) v st =
      (set_vehicle_stats (<[v := s]> (vehicle_stats st)) st, Resolved (Some s))
    /\ total_offers_used s = offers_used st v + 1.
Proof.
  intros Hv. unfold offers_used.
  destruct (vehicle_stats st !! v) as [s|] eqn:E.
  - eexists. split; [by apply incrementOffersUsed_present |]. done.
  - destruct Hv as [Hin | [? ?]]; [| done].
    eexists. split; [by apply incrementOffersUsed_autocreate |]. done.
Qed.

(** C3. If the row O is 'active', its vehicle is in the vehicles table
    and a visit id is given, the handler answers success; afterwards O is
    'used' with used_date the current time and used_on_visit_id the given
    visit, and the vehicle's statistics row has current_visit_count = 0
    and total_offers_used one more than before (counted from the column
    default when the row did not exist); no other vehicle_offers row
    changes. *)
Theorem markOfferAsUsed_redeems fuel st i r v visit notes :
  vehicle_offers st !! i = Some r ->
  status r = Some "active" ->
  vehicle_id r = Some v ->
  v ∈ vehicles st ->
  visit <> 0 ->
  exists st' r' s',
    VehicleOfferController.markOfferAsUsed (S (S fuel)) i (val visit) notes st
      = (st', Resolved (mkResponse 200 true
                          "Vehicle offer marked as used successfully"))
    /\ vehicle_offers st' = <[i := r']> (vehicle_offers st)
    /\ status r' = Some "used"
    /\ used_date r' = Some (CURRENT_TIMESTAMP st)
    /\ used_on_visit_id r' = Some visit
    /\ vehicle_id r' = Some v
    /\ vehicle_stats st' !! v = Some s'
    /\ current_visit_count s' = 0
    /\ total_offers_used s' = offers_used st v + 1.
Proof.
  intros Hr Ha Hv Hin Hvisit.
  set (st1 := set_vehicle_offers
                (<[i := used_row st (Some visit) notes r]> (vehicle_offers st)) st).
  destruct (incrementOffersUsed_resolves fuel st1 v (or_introl Hin))
    as (s & Hinc & Hs).
  set (st2 := set_vehicle_stats (<[v := s]> (vehicle_stats st1)) st1) in *.
  assert (vehicle_stats st2 !! v = Some s) as Hs2 by apply lookup_insert_eq.
  pose proof (resetVisitCount_present st2 v s Hs2) as Hreset. simpl in Hreset.
  eexists _, (used_row st (Some visit) notes r), _.
  split.
  { unfold VehicleOfferController.markOfferAsUsed, try_catch.
    unfold not_, falsy, falsy_Z. rewrite (proj2 (Z.eqb_neq visit 0) Hvisit).
    unfold bind at 1. rewrite (markAsUsed_active _ _ _ _ _ Hr Ha). fold st1.
    unfold bind at 1. unfold try_catch.
    change (to_sql (val visit)) with (Some visit). fold st1.
    cbn [row snd used_row vehicle_id VehicleOfferController.with_vehicle].
    rewrite Hv. cbn [VehicleOfferController.with_vehicle].
    unfold bind at 1. rewrite Hinc.
    unfold bind at 1. rewrite Hreset. reflexivity. }
  split; [done |]. split; [done |]. split; [done |]. split; [done |].
  split; [exact Hv |].
  split; [apply lookup_insert_eq |]. split; [done |]. exact Hs.
Qed.

End Redemption.

(** ** Offers on concrete stores *)

Section OfferExamples.

Import VehicleOffer VehicleOfferController.

(** C1 on the code: the update handler does not reject a duplicate. With
    vehicle 1 and vehicle 2 each holding one active instance of offer 1,
    updating row 2 with vehicle_id = 1 and status = 'active' runs the
    hasActiveOffer check, answers success, and leaves two active rows for
    the pair (1, 1). *)
Theorem updateVehicleOffer_admits_duplicate_active :
  count_active (Some 1) (Some 1) two_holders = 1
  /\ snd (hasActiveOffer (Some 1) (Some 1) two_holders) = Resolved true
  /\ snd (updateVehicleOffer 2 move_to_vehicle_1 two_holders)
     = Resolved (mkResponse 200 true "Vehicle offer updated successfully")
  /\ count_active (Some 1) (Some 1)
       (fst (updateVehicleOffer 2 move_to_vehicle_1 two_holders)) = 2.
Proof. repeat split; vm_compute; reflexivity. Qed.

(** C2 as stated fails on the generic update: the row of vehicle 1 is
    'used', and an update with status = 'active' succeeds and puts it
    back to 'active', a stored field other than notes. *)
Lemma update_reactivates_used_offer :
  vehicle_offers redeemed !! 1 = Some used_offer
  /\ status used_offer = Some "used"
  /\ exists st' r',
       updateVehicleOffer 1 reactivate redeemed
         = (st', Resolved (mkResponse 200 true "Vehicle offer updated successfully"))
       /\ vehicle_offers st' !! 1 = Some r'
       /\ status r' = Some "active"
       /\ status r' <> status used_offer.
Proof.
  split; [vm_compute; reflexivity |]. split; [reflexivity |].
  exists (fst (updateVehicleOffer 1 reactivate redeemed)),
         (mkVehicleOffer (Some 1) (Some 1) None (Some noon) (Some noon)
            (Some 42) (Some "active") None (Some noon)).
  repeat split; try (vm_compute; reflexivity). simpl. discriminate.
Qed.

Lemma redeemed_row : vehicle_offers redeemed !! 1 = Some used_offer.
Proof. vm_compute. reflexivity. Defined.

Lemma used_offer_not_active : status used_offer <> Some "active".
Proof. simpl. discriminate. Defined.

Lemma mark_rejected_on_used_offer :
  vehicle_offers redeemed !! 1 = Some used_offer
  /\ status used_offer <> Some "active"
  /\ markAsUsed 1 (Some 43) null redeemed
     = (redeemed, Rejected "Vehicle offer not found or not active")
  /\ markAsExpired 1 null redeemed
     = (redeemed, Rejected "Vehicle offer not found or not active").
Proof.
  split; [exact redeemed_row |]. split; [exact used_offer_not_active |].
  destruct (mark_rejected_unless_active redeemed 1 used_offer
              redeemed_row used_offer_not_active) as (Hu & He & _).
  split; [apply Hu | apply He].
Defined.

Lemma transitions_keep_used_offer :
  vehicle_offers redeemed !! 1 = Some used_offer
  /\ vehicle_offers (run_transition (MarkAsExpired 1 (val "late")) redeemed) !! 1
     = Some used_offer
  /\ vehicle_offers (run_transition ExpireOffers redeemed) !! 1
     = Some used_offer
  /\ exists r',
       snd (update 1 reactivate redeemed) = Resolved (Some (1, r'))
       /\ status r' = Some "active"
       /\ notes r' = notes used_offer
       /\ used_on_visit_id r' = used_on_visit_id used_offer.
Proof.
  split; [exact redeemed_row |].
  destruct (transitions_one_directional redeemed 1 used_offer redeemed_row)
    as [Hguarded Hupdate].
  split; [| split].
  - destruct (Hguarded (MarkAsExpired 1 (val "late"))) as (r' & Hr' & _ & Hsame).
    rewrite Hr'. f_equal. exact (Hsame used_offer_not_active).
  - destruct (Hguarded ExpireOffers) as (r' & Hr' & _ & Hsame).
    rewrite Hr'. f_equal. exact (Hsame used_offer_not_active).
  - destruct (Hupdate reactivate)
      as (r' & Hrun & _ & _ & _ & _ & _ & Hvisit & Hstatus & Hnotes).
    exists r'. rewrite Hrun. repeat split; assumption.
Defined.

Lemma two_holders_row : vehicle_offers two_holders !! 1 = Some (active_offer 1 1).
Proof. vm_compute. reflexivity. Defined.

Lemma two_holders_vehicle : 1 ∈ vehicles two_holders.
Proof. unfold two_holders. simpl. set_solver. Defined.

Lemma markOfferAsUsed_scenario_B :
  vehicle_offers two_holders !! 1 = Some (active_offer 1 1)
  /\ exists st' r' s',
       markOfferAsUsed 2 1 (val 42) undefined two_holders
         = (st', Resolved (mkResponse 200 true
                             "Vehicle offer marked as used successfully"))
       /\ vehicle_offers st' = <[1 := r']> (vehicle_offers two_holders)
       /\ status r' = Some "used"
       /\ used_on_visit_id r' = Some 42
       /\ vehicle_stats st' !! 1 = Some s'
       /\ current_visit_count s' = 0
       /\ total_offers_used s' = 1.
Proof.
  split; [exact two_holders_row |].
  destruct (markOfferAsUsed_redeems 0 two_holders 1 (active_offer 1 1) 1 42
              undefined two_holders_row eq_refl eq_refl two_holders_vehicle)
    as (st' & r' & s' & Hrun & Hrows & Hst & _ & Hvisit & _ & Hs & Hc & Hu).
  { discriminate. }
  exists st', r', s'. repeat split; assumption.
Defined.


End OfferExamples.

(** ** Offer definitions *)

Section OfferCatalog.

Import Offer.

Implicit Types (st : Store) (d : offerData).

Lemma missing_or_not_positive_check (x : field jsnum) :
  missing_or_not_positive x -> not_ x || le_zero x = true.
Proof.
  destruct x as [| | [| q]]; simpl; try done.
  intros Hq. apply orb_true_iff. right. by apply Qle_bool_iff.
Qed.

Lemma db_execute_throws {A} (statement : async A) st :
  db_execute statement st = (st, Rejected TypeError_execute).
Proof. reflexivity. Qed.

(** After its four checks [create] reaches [db.execute], which throws. *)
Lemma create_checked st d :
  not_ (data_name d) || not_ (data_visit_threshold d)
    || not_ (data_discount_type d) = false ->
  includes validDiscountTypes (data_discount_type d) = true ->
  negb (strict_eq (data_discount_type d) "free_wash")
    && (not_ (data_discount_value d) || le_zero (data_discount_value d)) = false ->
  strict_eq (data_discount_type d) "free_wash"
    && truthy (data_discount_value d) && gt_zero (data_discount_value d) = false ->
  create d st = (st, Rejected TypeError_execute).
Proof.
  intros H1 H2 H3 H4. unfold create. rewrite H1, H2, H3, H4. cbn [negb].
  unfold bind. by rewrite db_execute_throws.
Qed.

Lemma create_rejects st d : exists e, create d st = (st, Rejected e).
Proof.
  unfold create.
  repeat match goal with
         | |- context [if ?c then throw _ else _] => destruct c; [by eexists |]
         end.
  unfold bind. rewrite db_execute_throws. by eexists.
Qed.

(** C9 on the code. Creating an offer of type 'percentage' or
    'fixed_amount' whose discount_value is missing, zero or negative
    rejects and leaves the store as it was (with the discount message when
    name and threshold are given), as the claim says. An offer of type
    'free_wash' is never persisted, with 0 or any other value: [create]
    puts 0 in the parameter list and then calls [execute] on a [db] that
    is [undefined], so for every data object it rejects and leaves the
    store as it was, with the TypeError whenever name and threshold are
    given and no positive value is named. *)
Theorem create_discount_rule st d :
  ((data_discount_type d = val "percentage"
    \/ data_discount_type d = val "fixed_amount") ->
   missing_or_not_positive (data_discount_value d) ->
   exists msg,
     create d st = (st, Rejected msg)
     /\ (truthy (data_name d) = true ->
         truthy (data_visit_threshold d) = true ->
         msg = "Discount value is required and must be positive for non-free wash offers"))
  /\ (data_discount_type d = val "free_wash" ->
      (exists msg, create d st = (st, Rejected msg))
      /\ (forall st' o, create d st <> (st', Resolved o))
      /\ (truthy (data_name d) = true ->
          truthy (data_visit_threshold d) = true ->
          gt_zero (data_discount_value d) = false ->
          create d st = (st, Rejected TypeError_execute))).
Proof.
  split.
  - intros Htype Hvalue. unfold create.
    apply missing_or_not_positive_check in Hvalue.
    unfold truthy.
    destruct (not_ (data_name d)); simpl; [by eexists |].
    destruct (not_ (data_visit_threshold d)); simpl; [by eexists |].
    destruct Htype as [-> | ->]; simpl; rewrite Hvalue; by eexists.
  - intros Htype. split; [apply create_rejects |]. split.
    + intros st' o. destruct (create_rejects st d) as [e ->]. discriminate.
    + intros Hname Hthreshold Hvalue. unfold truthy in *.
      apply negb_true_iff in Hname, Hthreshold.
      apply create_checked; rewrite Htype; cbn [negb andb].
      * by rewrite Hname, Hthreshold.
      * done.
      * done.
      * rewrite Hvalue. apply andb_false_r.
Qed.

Lemma create_scenario_D :
  missing_or_not_positive (data_discount_value percent_zero)
  /\ create percent_zero two_holders
     = (two_holders,
        Rejected "Discount value is required and must be positive for non-free wash offers")
  /\ create free_wash_offer two_holders
     = (two_holders,
        Rejected "Cannot read properties of undefined (reading 'execute')").
Proof.
  assert (missing_or_not_positive (data_discount_value percent_zero)) as Hzero.
  { simpl. unfold Qle. simpl. lia. }
  split; [exact Hzero |].
  destruct (create_discount_rule two_holders percent_zero) as [Hreject _].
  destruct (Hreject (or_introl eq_refl) Hzero) as (msg & Hrun & Hmsg).
  split.
  - rewrite Hrun. f_equal. f_equal. exact (Hmsg eq_refl eq_refl).
  - destruct (create_discount_rule two_holders free_wash_offer) as [_ Hfree].
    destruct (Hfree eq_refl) as (_ & _ & Hthrown).
    exact (Hthrown eq_refl eq_refl eq_refl).
Defined.

End OfferCatalog.

(** ** The duplicate check of the two write paths *)

Section DuplicateCheck.

Import VehicleOffer VehicleOfferController.

Implicit Types (st : Store) (i : Z) (r : VehicleOfferRow).

Lemma hasActiveOffer_run st vehicleId offerId :
  hasActiveOffer vehicleId offerId st
    = (st, Resolved (0 <? count_active vehicleId offerId st)).
Proof. done. Qed.

(** An active row of the pair makes the count positive. *)
Lemma hasActiveOffer_found st i r v o :
  vehicle_offers st !! i = Some r ->
  active_for (Some v) (Some o) r = true ->
  hasActiveOffer (Some v) (Some o) st = (st, Resolved true).
Proof.
  intros Hr Hact. rewrite hasActiveOffer_run. do 2 f_equal.
  apply Z.ltb_lt. unfold count_active.
  assert (size (filter (fun kr => active_for (Some v) (Some o) (snd kr) = true)
                       (vehicle_offers st)) <> 0%nat) as Hne; [| lia].
  apply (map_size_ne_0_lookup_2 _ i). exists r.
  by apply map_lookup_filter_Some_2.
Qed.

(** The create handler rejects a second active instance of a pair and
    writes nothing. *)
Lemma createVehicleOffer_rejects_duplicate fuel st body i r v o :
  vehicle_offers st !! i = Some r ->
  active_for (Some v) (Some o) r = true ->
  data_vehicle_id body = val v -> data_offer_id body = val o ->
  v <> 0 -> o <> 0 ->
  data_status body = undefined \/ data_status body = val "active" ->
  createVehicleOffer fuel body st
    = (st, Resolved (mkResponse 400 false
                       "Vehicle already has an active offer of this type")).
Proof.
  intros Hr Hact Hv Ho Hv0 Ho0 Hstatus.
  unfold createVehicleOffer, try_catch. rewrite Hv, Ho.
  unfold not_, falsy, falsy_Z.
  rewrite (proj2 (Z.eqb_neq v 0) Hv0), (proj2 (Z.eqb_neq o 0) Ho0).
  cbn [orb to_sql]. unfold bind at 1.
  rewrite (hasActiveOffer_found st i r v o Hr Hact).
  by destruct Hstatus as [-> | ->].
Qed.

(** The update handler compares the id of the row it has just read by
    that id with the same id, so its rejection is never taken. *)
Lemma updateVehicleOffer_never_rejects_duplicate st i body :
  snd (updateVehicleOffer i body st)
    <> Resolved (mkResponse 400 false
                   "Vehicle already has an active offer of this type").
Proof.
  unfold updateVehicleOffer, try_catch, bind, findById, query, select_by_id.
  destruct (vehicle_offers st !! i) as [r|] eqn:Hr; simpl; [| done].
  destruct ((truthy (data_vehicle_id body) || truthy (data_offer_id body))
            && Offer.strict_eq (data_status body) "active").
  - unfold hasActiveOffer, bind, query, ret, id. simpl. rewrite Z.eqb_refl.
    rewrite andb_false_r.
    destruct (no_fields body); [done |].
    unfold update, bind, execute, update_where_id. rewrite Hr. simpl.
    unfold findById, query. simpl. done.
  - unfold ret.
    destruct (no_fields body); [done |].
    unfold update, bind, execute, update_where_id. rewrite Hr. simpl.
    unfold findById, query. simpl. done.
Qed.

End DuplicateCheck.

(** * Further properties of the models and handlers *)

(** ** The ledger operations one by one *)

Section LedgerOperations.

Import VehicleStats.

Implicit Types (st : Store) (v : Z) (s : VehicleStatsRow).

(** X1. [resetVisitCount] on a vehicle without a statistics row rejects
    with 'Vehicle statistics not found' and writes nothing; on a vehicle
    with a row it resolves with the row whose current_visit_count is 0
    and whose total_visits and offer counters are as before, and no other
    vehicle's row changes. *)
Theorem resetVisitCount_behaviour st v :
  (vehicle_stats st !! v = None ->
   resetVisitCount v st = (st, Rejected "Vehicle statistics not found"))
  /\ (forall s, vehicle_stats st !! v = Some s ->
      exists st' s',
        resetVisitCount v st = (st', Resolved (Some s'))
        /\ vehicle_stats st' !! v = Some s'
        /\ current_visit_count s' = 0
        /\ total_visits s' = total_visits s
        /\ total_offers_earned s' = total_offers_earned s
        /\ total_offers_used s' = total_offers_used s
        /\ last_visit_date s' = last_visit_date s
        /\ (forall w, w <> v -> vehicle_stats st' !! w = vehicle_stats st !! w)
        /\ vehicle_offers st' = vehicle_offers st).
Proof.
  split.
  - intros Hnone. unfold resetVisitCount, bind, execute.
    by rewrite update_where_vehicle_absent.
  - intros s Hs. eexists _, _. split; [by apply resetVisitCount_present |].
    simpl. split; [apply lookup_insert_eq |]. repeat split; try done.
    intros w Hw. by rewrite lookup_insert_ne.
Qed.

(** X2. [initializeStats] never overwrites: when the vehicle has a row it
    resolves with that row and the store is unchanged; otherwise it
    inserts a row with all four counters 0 and no last visit. Calling it a
    second time changes nothing. *)
Theorem initializeStats_behaviour st v :
  (forall s, vehicle_stats st !! v = Some s ->
     initializeStats v st = (st, Resolved (Some s)))
  /\ (vehicle_stats st !! v = None ->
      let zero := mkStats 0 0 0 0 None None in
      initializeStats v st
        = (set_vehicle_stats (<[v := zero]> (vehicle_stats st)) st,
           Resolved (Some zero)))
  /\ initializeStats v (fst (initializeStats v st))
     = (fst (initializeStats v st), snd (initializeStats v st)).
Proof.
  assert (forall st' s, vehicle_stats st' !! v = Some s ->
            initializeStats v st' = (st', Resolved (Some s))) as Hsome.
  { intros st' s Hs. unfold initializeStats, bind, findByVehicleId, query.
    by rewrite Hs. }
  assert (vehicle_stats st !! v = None ->
          initializeStats v st
          = (set_vehicle_stats (<[v := mkStats 0 0 0 0 None None]> (vehicle_stats st)) st,
             Resolved (Some (mkStats 0 0 0 0 None None)))) as Hnone.
  { intros Hn. unfold initializeStats, bind, findByVehicleId, query, execute.
    rewrite Hn. simpl. by rewrite lookup_insert_eq. }
  split; [exact (Hsome st) |]. split; [exact Hnone |].
  destruct (vehicle_stats st !! v) as [s|] eqn:E.
  - rewrite (Hsome st s E). simpl. by apply Hsome.
  - rewrite (Hnone eq_refl). simpl. apply Hsome. simpl. apply lookup_insert_eq.
Qed.

(** X3. [updateStats] on a vehicle without a row rejects with 'Vehicle
    statistics not found' and writes nothing; on a vehicle with a row each
    supplied counter is stored as given, each counter not supplied and
    last_visit_date are kept, and no other vehicle's row changes. *)
Theorem updateStats_behaviour st v (d : updateData) :
  (vehicle_stats st !! v = None ->
   updateStats v d st = (st, Rejected "Vehicle statistics not found"))
  /\ (forall s, vehicle_stats st !! v = Some s ->
      exists st' s',
        updateStats v d st = (st', Resolved (Some s'))
        /\ vehicle_stats st' !! v = Some s'
        /\ total_visits s' = default (total_visits s) (u_total_visits d)
        /\ current_visit_count s'
           = default (current_visit_count s) (u_current_visit_count d)
        /\ total_offers_earned s'
           = default (total_offers_earned s) (u_total_offers_earned d)
        /\ total_offers_used s'
           = default (total_offers_used s) (u_total_offers_used d)
        /\ last_visit_date s' = last_visit_date s
        /\ (forall w, w <> v -> vehicle_stats st' !! w = vehicle_stats st !! w)).
Proof.
  split.
  - intros Hnone. unfold updateStats, bind, execute.
    by rewrite update_where_vehicle_absent.
  - intros s Hs. unfold updateStats, bind, execute.
    rewrite (update_where_vehicle_present _ _ _ _ Hs). simpl.
    unfold findByVehicleId, query. simpl. rewrite lookup_insert_eq.
    eexists _, _. split; [done |]. simpl.
    split; [apply lookup_insert_eq |]. repeat split; try done.
    intros w Hw. by rewrite lookup_insert_ne.
Qed.

End LedgerOperations.

Section LedgerComposition.

Import VehicleStats.

Implicit Types (st : Store) (v : Z) (s : VehicleStatsRow).

Lemma recordVisit_counters st v :
  v ∈ vehicles st ->
  let st' := fst (recordVisit v st) in
  vehicles st' = vehicles st
  /\ clock st' = clock st
  /\ vehicle_offers st' = vehicle_offers st
  /\ exists s', vehicle_stats st' !! v = Some s'
       /\ total_visits s' = counter_of total_visits st v + 1
       /\ current_visit_count s' = counter_of current_visit_count st v + 1
       /\ total_offers_earned s' = counter_of total_offers_earned st v
       /\ total_offers_used s' = counter_of total_offers_used st v
       /\ last_visit_date s' = Some (clock st).
Proof.
  intros Hin. simpl. rewrite recordVisit_known by done. simpl.
  rewrite upsert_visit_store. simpl. do 3 (split; [done |]).
  rewrite lookup_insert_eq. eexists. split; [done |].
  unfold counter_of. by destruct (vehicle_stats st !! v).
Qed.

(** X4. Visits add up: after one [recordVisit] of a registered vehicle at
    each of n given times (n > 0), its total_visits and its
    current_visit_count are each n more than before (counted from 0 when it
    had no row), its offer counters are as before, and last_visit_date is
    the time of the last visit. *)
Theorem visits_add_up (times : list timestamp) (last : timestamp) st v :
  v ∈ vehicles st ->
  exists s',
    vehicle_stats (visits_at (times ++ [last]) v st) !! v = Some s'
    /\ total_visits s'
       = counter_of total_visits st v + Z.of_nat (length (times ++ [last]))
    /\ current_visit_count s'
       = counter_of current_visit_count st v + Z.of_nat (length (times ++ [last]))
    /\ total_offers_earned s' = counter_of total_offers_earned st v
    /\ total_offers_used s' = counter_of total_offers_used st v
    /\ last_visit_date s' = Some last.
Proof.
  intros Hin.
  assert (forall ts st0, v ∈ vehicles st0 ->
            v ∈ vehicles (visits_at ts v st0)
            /\ forall f, In f [total_visits; current_visit_count] ->
                 counter_of f (visits_at ts v st0) v
                 = counter_of f st0 v + Z.of_nat (length ts)) as Hiter_visits.
  { induction ts as [| t ts IH]; intros st0 Hin0.
    - split; [done |]. intros f _. simpl. lia.
    - simpl.
      destruct (recordVisit_counters (set_clock t st0) v Hin0)
        as (Hveh & _ & _ & s1 & Hs1 & Ht & Hc & _).
      destruct (IH (fst (recordVisit v (set_clock t st0)))) as [Hin1 Hcount].
      { by rewrite Hveh. }
      split; [exact Hin1 |]. intros f Hf. rewrite (Hcount f Hf).
      unfold counter_of at 1. rewrite Hs1.
      destruct Hf as [<- | [<- | []]]; [rewrite Ht | rewrite Hc];
        unfold counter_of; simpl; lia. }
  assert (forall ts st0,
            counter_of total_offers_earned (visits_at ts v st0) v
              = counter_of total_offers_earned st0 v
            /\ counter_of total_offers_used (visits_at ts v st0) v
              = counter_of total_offers_used st0 v) as Hiter_offers.
  { induction ts as [| t ts IH]; intros st0; [done |]. simpl.
    destruct (IH (fst (recordVisit v (set_clock t st0)))) as [-> ->].
    destruct (decide (v ∈ vehicles st0)) as [Hin0 | Hout].
    - destruct (recordVisit_counters (set_clock t st0) v Hin0)
        as (_ & _ & _ & s1 & Hs1 & _ & _ & He & Hu & _).
      unfold counter_of at 1 3. by rewrite Hs1, He, Hu.
    - by rewrite recordVisit_unknown. }
  unfold visits_at. rewrite foldl_app. simpl.
  fold (visits_at times v st).
  destruct (Hiter_visits times st Hin) as [Hin' Hcount].
  destruct (Hiter_offers times st) as [He Hu].
  destruct (recordVisit_counters (set_clock last (visits_at times v st)) v Hin')
    as (_ & _ & _ & s' & Hs' & Ht & Hc & He' & Hu' & Hl).
  exists s'. split; [exact Hs' |].
  rewrite length_app. simpl.
  change (counter_of total_visits (set_clock last (visits_at times v st)) v)
    with (counter_of total_visits (visits_at times v st) v) in Ht.
  change (counter_of current_visit_count (set_clock last (visits_at times v st)) v)
    with (counter_of current_visit_count (visits_at times v st) v) in Hc.
  rewrite (Hcount total_visits) in Ht by (simpl; auto).
  rewrite (Hcount current_visit_count) in Hc by (simpl; auto).
  split; [lia |]. split; [lia |].
  split; [by rewrite He', <- He |]. split; [by rewrite Hu', <- Hu |]. exact Hl.
Qed.

(** X5. The self-call of the two increments is at most one deep: with a
    bound of 2 or more the call never runs out of the bound, and a larger
    bound gives the same store and the same outcome as the bound 2. *)
Theorem incrementOffers_depth st v fuel :
  incrementOffersEarned (S (S fuel)) v st = incrementOffersEarned 2 v st
  /\ snd (incrementOffersEarned 2 v st) <> OutOfFuel
  /\ incrementOffersUsed (S (S fuel)) v st = incrementOffersUsed 2 v st
  /\ snd (incrementOffersUsed 2 v st) <> OutOfFuel.
Proof.
  destruct (vehicle_stats st !! v) as [s|] eqn:E.
  - rewrite !(incrementOffersEarned_present _ _ _ _ E).
    rewrite !(incrementOffersUsed_present _ _ _ _ E). done.
  - destruct (decide (v ∈ vehicles st)) as [Hin | Hout].
    + rewrite !(incrementOffersEarned_autocreate _ _ _ Hin E).
      rewrite !(incrementOffersUsed_autocreate _ _ _ Hin E). done.
    + rewrite !incrementOffersEarned_absent, !incrementOffersUsed_absent by done.
      unfold bind. rewrite recordVisit_unknown by done. done.
Qed.

End LedgerComposition.

(** ** The vehicle offer model *)

Section VehicleOfferModel.

Import VehicleOffer.

Implicit Types (st : Store) (i : Z) (r : VehicleOfferRow).

(** X6. Insert and look up: with both ids given and the next id not
    taken, [create] resolves with the new row under that id, [findById]
    then returns the same row, the row carries the given vehicle and offer,
    status 'active' unless one was given, and the given issued_date or else
    the current time; the rows that were there are kept and the counter
    moves on by one. *)
Theorem create_then_findById st (d : offerData) v o :
  data_vehicle_id d = val v -> v <> 0 ->
  data_offer_id d = val o -> o <> 0 ->
  fresh_vehicle_offer_id st ->
  exists st' r,
    let i := vehicle_offers_auto_increment st in
    create d st = (st', Resolved (Some (i, r)))
    /\ findById i st' = (st', Resolved (Some (i, r)))
    /\ vehicle_id r = Some v /\ offer_id r = Some o
    /\ status r = to_sql (with_default "active" (data_status d))
    /\ issued_date r
       = Some (default (CURRENT_TIMESTAMP st) (or_null (data_issued_date d)))
    /\ (forall j r0, vehicle_offers st !! j = Some r0 ->
          vehicle_offers st' !! j = Some r0)
    /\ vehicle_offers_auto_increment st' = i + 1
    /\ vehicle_stats st' = vehicle_stats st.
Proof.
  intros Hv Hv0 Ho Ho0 Hfresh. unfold create. rewrite Hv, Ho.
  unfold not_, falsy, falsy_Z.
  rewrite (proj2 (Z.eqb_neq v 0) Hv0), (proj2 (Z.eqb_neq o 0) Ho0).
  cbn [orb]. unfold bind, new_Date, query, execute, findById, select_by_id.
  simpl. rewrite lookup_insert_eq. simpl.
  eexists _, _. split; [done |]. simpl.
  split; [unfold query; simpl; by rewrite lookup_insert_eq |].
  repeat split; try done.
  intros j r0 Hj. rewrite lookup_insert_ne; [done |].
  intros <-. unfold fresh_vehicle_offer_id in Hfresh. congruence.
Qed.

(** X7. [delete] of an id without a row resolves false and writes
    nothing; of an id with a row it resolves true, [findById] then gives
    null, and every other row is kept. *)
Theorem delete_behaviour st i :
  (vehicle_offers st !! i = None -> delete i st = (st, Resolved false))
  /\ (forall r, vehicle_offers st !! i = Some r ->
      exists st',
        delete i st = (st', Resolved true)
        /\ findById i st' = (st', Resolved None)
        /\ (forall j, j <> i -> vehicle_offers st' !! j = vehicle_offers st !! j)
        /\ vehicle_stats st' = vehicle_stats st).
Proof.
  split.
  - intros Hn. unfold delete, bind, execute, delete_where_id. by rewrite Hn.
  - intros r Hr. unfold delete, bind, execute, delete_where_id. rewrite Hr.
    simpl. eexists. split; [done |].
    unfold findById, query, select_by_id. simpl. rewrite lookup_delete_eq.
    split; [done |]. split; [| done].
    intros j Hj. by rewrite lookup_delete_ne.
Qed.

Lemma count_active_positive st vehicleId offerId :
  0 < count_active vehicleId offerId st <->
  exists i r, vehicle_offers st !! i = Some r
              /\ active_for vehicleId offerId r = true.
Proof.
  unfold count_active. split.
  - intros Hpos.
    assert (size (filter (fun kr => active_for vehicleId offerId (snd kr) = true)
                         (vehicle_offers st)) <> 0%nat) as Hne by lia.
    apply map_size_ne_0_lookup_1 in Hne as [i [r Hr]].
    apply map_lookup_filter_Some in Hr as [Hr Hact]. eauto.
  - intros (i & r & Hr & Hact).
    assert (size (filter (fun kr => active_for vehicleId offerId (snd kr) = true)
                         (vehicle_offers st)) <> 0%nat) as Hne; [| lia].
    apply (map_size_ne_0_lookup_2 _ i). exists r.
    by apply map_lookup_filter_Some_2.
Qed.

(** X8. [hasActiveOffer] answers true exactly when some row has that
    vehicle_id, that offer_id and status 'active'; it writes nothing, and
    with a NULL id it answers false. *)
Theorem hasActiveOffer_iff st v o :
  (exists b, hasActiveOffer (Some v) (Some o) st = (st, Resolved b)
     /\ (b = true <->
         exists i r, vehicle_offers st !! i = Some r
                     /\ vehicle_id r = Some v /\ offer_id r = Some o
                     /\ status r = Some "active"))
  /\ hasActiveOffer None (Some o) st = (st, Resolved false)
  /\ hasActiveOffer (Some v) None st = (st, Resolved false).
Proof.
  assert (forall r, active_for (Some v) (Some o) r = true <->
            vehicle_id r = Some v /\ offer_id r = Some o
            /\ status r = Some "active") as Hact.
  { intros r. unfold active_for, is_status, sql_eq.
    destruct (vehicle_id r), (offer_id r), (status r); simpl;
      rewrite ?andb_true_iff, ?bool_decide_eq_true;
      intuition (try congruence). }
  split; [| split].
  - eexists. split; [done |]. rewrite Z.ltb_lt, count_active_positive.
    split; intros (i & r & Hr & H); exists i, r; split; try done; by apply Hact.
  - unfold hasActiveOffer, bind, query, ret. do 2 f_equal.
    apply Z.ltb_ge.
    assert (~ 0 < count_active None (Some o) st); [| lia].
    rewrite count_active_positive. intros (i & r & _ & H).
    unfold active_for, sql_eq in H. by destruct (vehicle_id r).
  - unfold hasActiveOffer, bind, query, ret. do 2 f_equal.
    apply Z.ltb_ge.
    assert (~ 0 < count_active (Some v) None st); [| lia].
    rewrite count_active_positive. intros (i & r & _ & H).
    unfold active_for, sql_eq in H.
    destruct (vehicle_id r), (offer_id r); simpl in H;
      rewrite ?andb_false_r in H; done.
Qed.


(** X10. [update] never adds or removes a row: on an id without a row it
    resolves null and writes nothing; on an id with a row it rewrites that
    row only and the set of ids is the same. Each of the eight columns of
    the row takes the supplied value (NULL for null) and keeps its value
    when the property is undefined; updated_at becomes the current
    time. *)
Theorem update_behaviour st i (d : offerData) :
  (vehicle_offers st !! i = None -> update i d st = (st, Resolved None))
  /\ (forall r, vehicle_offers st !! i = Some r ->
      exists st' r',
        update i d st = (st', Resolved (Some (i, r')))
        /\ vehicle_offers st' = <[i := r']> (vehicle_offers st)
        /\ dom (vehicle_offers st') = dom (vehicle_offers st)
        /\ vehicle_stats st' = vehicle_stats st
        /\ written (data_vehicle_id d) (vehicle_id r) (vehicle_id r')
        /\ written (data_offer_id d) (offer_id r) (offer_id r')
        /\ written (data_earned_on_visit_id d) (earned_on_visit_id r)
                   (earned_on_visit_id r')
        /\ written (data_issued_date d) (issued_date r) (issued_date r')
        /\ written (data_used_date d) (used_date r) (used_date r')
        /\ written (data_used_on_visit_id d) (used_on_visit_id r)
                   (used_on_visit_id r')
        /\ written (data_status d) (status r) (status r')
        /\ written (data_notes d) (notes r) (notes r')
        /\ vo_updated_at r' = Some (CURRENT_TIMESTAMP st)).
Proof.
  split.
  - intros Hn. unfold update, bind, execute, update_where_id. by rewrite Hn.
  - intros r Hr. destruct (update_present st i r d Hr) as (r' & Hrun & Hcols).
    eexists _, r'. split; [exact Hrun |]. split; [done |]. split.
    { cbn [vehicle_offers set_vehicle_offers]. by apply dom_insert_lookup_L. }
    split; [done | exact Hcols].
Qed.

(** X11. The sweep spares what has not lapsed: an 'active' row whose
    offer is valid until the current date or later, has no valid_until, or
    is missing from offers, is left as it is, as is every row that is not
    'active'. *)
Theorem expireOffers_spares st i r :
  vehicle_offers st !! i = Some r ->
  status r <> Some "active"
  \/ offer_id r = None
  \/ (exists oid, offer_id r = Some oid /\ offers st !! oid = None)
  \/ (exists oid o, offer_id r = Some oid /\ offers st !! oid = Some o
        /\ (valid_until o = None
            \/ exists d, valid_until o = Some d
                 /\ date_ltb d (CURRENT_DATE st) = false)) ->
  vehicle_offers (fst (expireOffers st)) !! i = Some r.
Proof.
  intros Hr Hcase. simpl. rewrite lookup_fmap, Hr. simpl. f_equal.
  unfold expire_row.
  assert (stale st r = None) as ->; [| done].
  unfold stale. destruct (is_status "active" r) eqn:Ha; [| done].
  destruct Hcase as [Hn | [Hoid | [(oid & Hoid & Ho) | (oid & o & Hoid & Ho & Hv)]]].
  - apply is_status_true in Ha. done.
  - by rewrite Hoid.
  - rewrite Hoid. simpl. by rewrite Ho.
  - rewrite Hoid. simpl. rewrite Ho. simpl.
    destruct Hv as [-> | (d & -> & Hd)]; [done |]. simpl. by rewrite Hd.
Qed.

Lemma date_ltb_irrefl d : date_ltb d d = false.
Proof.
  unfold date_ltb. rewrite !Z.ltb_irrefl, !Z.eqb_refl. done.
Qed.

End VehicleOfferModel.

(** ** The vehicle offer handlers *)

Section VehicleOfferHandlers.

Import VehicleOffer VehicleOfferController.

Implicit Types (st : Store) (i : Z) (r : VehicleOfferRow).

Lemma recordVisit_keeps_offers st v :
  vehicle_offers (fst (VehicleStats.recordVisit v st)) = vehicle_offers st.
Proof.
  destruct (decide (v ∈ vehicles st)) as [Hin | Hout].
  - by destruct (recordVisit_counters st v Hin) as (_ & _ & -> & _).
  - by rewrite recordVisit_unknown.
Qed.

Lemma incrementOffersEarned_keeps_offers fuel st v :
  vehicle_offers (fst (VehicleStats.incrementOffersEarned fuel v st))
    = vehicle_offers st.
Proof.
  revert st. induction fuel as [| fuel IH]; intros st; [done |].
  destruct (vehicle_stats st !! v) as [s|] eqn:E.
  - by rewrite (incrementOffersEarned_present _ _ _ _ E).
  - rewrite incrementOffersEarned_absent by done. unfold bind.
    pose proof (recordVisit_keeps_offers st v) as Hrec.
    destruct (VehicleStats.recordVisit v st) as [st1 [a | e |]];
      simpl in *; [| done | done].
    by rewrite IH.
Qed.

Lemma no_active_row st v o :
  hasActiveOffer (Some v) (Some o) st = (st, Resolved false) ->
  forall i r, vehicle_offers st !! i = Some r ->
    active_for (Some v) (Some o) r = false.
Proof.
  rewrite hasActiveOffer_run. intros [= Hcount] i r Hr.
  apply Z.ltb_ge in Hcount.
  destruct (active_for (Some v) (Some o) r) eqn:Hact; [| done].
  assert (0 < count_active (Some v) (Some o) st); [| lia].
  apply count_active_positive. eauto.
Qed.

Lemma bind_run {A B} (m : async A) (k : A -> async B) st st' a :
  m st = (st', Resolved a) -> bind m k st = k a st'.
Proof. intros H. unfold bind. by rewrite H. Qed.

Lemma fst_try_catch_ret {A} (m : async A) (x : string -> A) st :
  fst (try_catch m (fun e => ret (x e)) st) = fst (m st).
Proof. unfold try_catch. by destruct (m st) as [st' [a | e |]]. Qed.

Lemma fst_bind_ret {A B} (m : async A) (x : A -> B) st :
  fst (bind m (fun a => ret (x a)) st) = fst (m st).
Proof. unfold bind. by destruct (m st) as [st' [a | e |]]. Qed.

Lemma create_run st (d : offerData) :
  not_ (data_vehicle_id d) || not_ (data_offer_id d) = false ->
  create d st
  = (fst (insert (created_offer d st) st),
     Resolved (Some (vehicle_offers_auto_increment st, created_offer d st))).
Proof.
  intros Hids. unfold create. rewrite Hids.
  unfold bind, new_Date, query, execute, select_by_id. simpl.
  by rewrite lookup_insert_eq.
Qed.

Lemma count_earned_keeps_offers fuel body st :
  vehicle_offers (fst (count_earned fuel body st)) = vehicle_offers st.
Proof.
  unfold count_earned.
  destruct (Offer.strict_eq _ _ && truthy _); [| done].
  rewrite (fst_try_catch_ret _ (fun _ => tt)).
  rewrite (fst_bind_ret _ (fun _ => tt)).
  unfold with_vehicle. destruct (to_sql (data_vehicle_id body)); [| done].
  apply incrementOffersEarned_keeps_offers.
Qed.

(** The store after the create handler: untouched by a rejection, and
    otherwise the insert followed by the counting of the earned offer. *)
Lemma createVehicleOffer_store fuel st (body : offerData) :
  let status := with_default "active" (data_status body) in
  fst (createVehicleOffer fuel body st) =
    if not_ (data_vehicle_id body) || not_ (data_offer_id body) then st
    else if (0 <? count_active (to_sql (data_vehicle_id body))
                               (to_sql (data_offer_id body)) st)
            && Offer.strict_eq status "active" then st
    else fst (count_earned fuel body
                (fst (insert (created_offer body st) st))).
Proof.
  intros status. unfold createVehicleOffer.
  rewrite (fst_try_catch_ret _ (fun _ => _)). fold status.
  destruct (not_ (data_vehicle_id body) || not_ (data_offer_id body)) eqn:Hids;
    [done |].
  erewrite bind_run by apply hasActiveOffer_run.
  destruct ((0 <? count_active _ _ st) && Offer.strict_eq status "active");
    [done |].
  erewrite bind_run.
  2:{ apply create_run. exact Hids. }
  rewrite (fst_bind_ret _ (fun _ => _)).
  unfold created_offer, count_earned. cbn [data_vehicle_id data_offer_id
    data_earned_on_visit_id data_issued_date data_used_date
    data_used_on_visit_id data_status data_notes].
  fold status.
  replace (with_default "active" status) with status; [done |].
  unfold status. by destruct (data_status body).
Qed.

Lemma createVehicleOffer_offers fuel st (body : offerData) :
  vehicle_offers (fst (createVehicleOffer fuel body st)) = vehicle_offers st
  \/ exists v o r,
       vehicle_id r = Some v /\ offer_id r = Some o
       /\ (hasActiveOffer (Some v) (Some o) st = (st, Resolved false)
           \/ status r <> Some "active")
       /\ vehicle_offers (fst (createVehicleOffer fuel body st))
          = <[vehicle_offers_auto_increment st := r]> (vehicle_offers st).
Proof.
  rewrite createVehicleOffer_store.
  destruct (not_ (data_vehicle_id body) || not_ (data_offer_id body)) eqn:Hids;
    [by left |].
  destruct ((0 <? count_active _ _ st) && Offer.strict_eq _ "active") eqn:Hdup;
    [by left |].
  right. rewrite count_earned_keeps_offers.
  destruct (data_vehicle_id body) as [| | v] eqn:Hv; try done.
  destruct (data_offer_id body) as [| | o] eqn:Ho;
    try (simpl in Hids; by rewrite orb_true_r in Hids).
  exists v, o, (created_offer body st).
  unfold created_offer. rewrite Hv, Ho. cbn [vehicle_id offer_id status to_sql].
  split; [done |]. split; [done |]. split; [| done].
  cbn [to_sql] in Hdup. apply andb_false_iff in Hdup as [Hc | Hs].
  - left. rewrite hasActiveOffer_run. by rewrite Hc.
  - right. unfold Offer.strict_eq in Hs.
    destruct (with_default "active" (data_status body)) as [| | s]; simpl; try done.
    apply bool_decide_eq_false in Hs. congruence.
Qed.

(** A request that is served with no other write between its check and
    its insert keeps the pairs with at most one active row. *)
Lemma unique_active_createVehicleOffer fuel st (body : offerData) :
  unique_active st ->
  unique_active (fst (createVehicleOffer fuel body st)).
Proof.
  intros Huniq.
  destruct (createVehicleOffer_offers fuel st body)
    as [Hsame | (v & o & r & Hrv & Hro & Hcase & Hnew)].
  { unfold unique_active. rewrite Hsame. exact Huniq. }
  unfold unique_active. rewrite Hnew.
  intros v' o' i j ri rj Hi Hj Hai Haj.
  assert (forall k rk,
            <[vehicle_offers_auto_increment st := r]> (vehicle_offers st) !! k
              = Some rk ->
            active_for (Some v') (Some o') rk = true ->
            k <> vehicle_offers_auto_increment st ->
            vehicle_offers st !! k = Some rk /\ (v' <> v \/ o' <> o
              \/ status r <> Some "active")) as Hold.
  { intros k rk Hk Hak Hne. rewrite lookup_insert_ne in Hk by done.
    split; [done |].
    destruct Hcase as [Hnone | Hst]; [| auto].
    destruct (decide (v' = v)) as [-> | Hv]; [| auto].
    destruct (decide (o' = o)) as [-> | Ho]; [| auto].
    rewrite (no_active_row st v o Hnone k rk Hk) in Hak. done. }
  assert (forall rk,
            <[vehicle_offers_auto_increment st := r]> (vehicle_offers st)
              !! vehicle_offers_auto_increment st = Some rk ->
            active_for (Some v') (Some o') rk = true ->
            v' = v /\ o' = o /\ status r = Some "active") as Hnewrow.
  { intros rk Hk Hak. rewrite lookup_insert_eq in Hk. injection Hk as <-.
    unfold active_for, is_status, sql_eq in Hak. rewrite Hrv, Hro in Hak.
    destruct (status r) as [s|]; [| by rewrite andb_false_r in Hak].
    rewrite !andb_true_iff, !bool_decide_eq_true in Hak.
    destruct Hak as [[[= ->] [= ->]] [= ->]]. done. }
  destruct (decide (i = vehicle_offers_auto_increment st)) as [-> | Hni];
    destruct (decide (j = vehicle_offers_auto_increment st)) as [-> | Hnj];
    [done | | |].
  - destruct (Hnewrow ri Hi Hai) as (-> & -> & Hst).
    destruct (Hold j rj Hj Haj Hnj) as [_ [? | [? | ?]]]; done.
  - destruct (Hnewrow rj Hj Haj) as (-> & -> & Hst).
    destruct (Hold i ri Hi Hai Hni) as [_ [? | [? | ?]]]; done.
  - destruct (Hold i ri Hi Hai Hni) as [Hi' _].
    destruct (Hold j rj Hj Haj Hnj) as [Hj' _].
    by apply (Huniq v' o' i j ri rj).
Qed.


Lemma try_catch_ret_outcome {A} (m : async A) (x : string -> A) st :
  forall e, snd (try_catch m (fun e => ret (x e)) st) <> Rejected e.
Proof. intros e. unfold try_catch. by destruct (m st) as [st' [a | e' |]]. Qed.

Lemma count_earned_outcome fuel body st :
  forall e, snd (count_earned fuel body st) <> Rejected e.
Proof.
  intros e. unfold count_earned.
  destruct (Offer.strict_eq _ _ && truthy _); [| done].
  apply (try_catch_ret_outcome _ (fun _ => tt)).
Qed.

Lemma createVehicleOffer_unfold fuel (body : offerData) :
  createVehicleOffer fuel body =
  try_catch
    (let status := with_default "active" (data_status body) in
     if not_ (data_vehicle_id body) || not_ (data_offer_id body) then
       ret (mkResponse 400 false "Vehicle ID and Offer ID are required")
     else
       let! hasActiveOffer :=
         hasActiveOffer (to_sql (data_vehicle_id body)) (to_sql (data_offer_id body)) in
       if hasActiveOffer && Offer.strict_eq status "active" then
         ret (mkResponse 400 false "Vehicle already has an active offer of this type")
       else
         let! vehicleOffer :=
           create (mkOfferData (data_vehicle_id body) (data_offer_id body)
                     (data_earned_on_visit_id body) (data_issued_date body)
                     (data_used_date body) (data_used_on_visit_id body)
                     status (data_notes body)) in
         await count_earned fuel body ;;
         ret (mkResponse 201 true "Vehicle offer created successfully"))
    (fun error => ret (mkResponse 500 false "Error creating vehicle offer")).
Proof. reflexivity. Qed.

Lemma createVehicleOffer_in_two_parts fuel (body : offerData) st :
  createVehicleOffer fuel body st = createVehicleOffer_alone fuel body st.
Proof.
  rewrite createVehicleOffer_unfold.
  unfold createVehicleOffer_alone, createVehicleOffer_checks,
    createVehicleOffer_inserts, resume, try_catch.
  destruct (not_ (data_vehicle_id body) || not_ (data_offer_id body)); [done |].
  unfold bind at 1 4 5. rewrite hasActiveOffer_run.
  destruct ((0 <? count_active _ _ st) && Offer.strict_eq _ "active"); [done |].
  cbn [ret]. done.
Qed.

Lemma count_earned_run fuel (body : offerData) st :
  exists st',
    count_earned (S (S fuel)) body st = (st', Resolved tt)
    /\ vehicle_offers st' = vehicle_offers st
    /\ vehicle_offers_auto_increment st' = vehicle_offers_auto_increment st.
Proof.
  unfold count_earned.
  destruct (Offer.strict_eq _ _ && truthy _); [| by eexists].
  unfold try_catch, bind, with_vehicle.
  destruct (to_sql (data_vehicle_id body)) as [v|]; [| by eexists].
  destruct (vehicle_stats st !! v) as [s|] eqn:E.
  - rewrite (incrementOffersEarned_present _ _ _ _ E). by eexists.
  - destruct (decide (v ∈ vehicles st)) as [Hin | Hout].
    + rewrite (incrementOffersEarned_autocreate _ _ _ Hin E). by eexists.
    + rewrite incrementOffersEarned_absent by done. unfold bind.
      rewrite recordVisit_unknown by done. by eexists.
Qed.

Lemma createVehicleOffer_inserts_run fuel (body : offerData) st :
  not_ (data_vehicle_id body) || not_ (data_offer_id body) = false ->
  exists st',
    createVehicleOffer_inserts (S (S fuel)) body st
    = (st', Resolved (mkResponse 201 true "Vehicle offer created successfully"))
    /\ vehicle_offers st'
       = <[vehicle_offers_auto_increment st := created_offer body st]>
           (vehicle_offers st)
    /\ vehicle_offers_auto_increment st' = vehicle_offers_auto_increment st + 1.
Proof.
  intros Hids. unfold createVehicleOffer_inserts, try_catch.
  erewrite bind_run.
  2:{ apply create_run. exact Hids. }
  unfold bind.
  destruct (count_earned_run fuel body
              (fst (insert
                 (created_offer
                    (mkOfferData (data_vehicle_id body) (data_offer_id body)
                       (data_earned_on_visit_id body) (data_issued_date body)
                       (data_used_date body) (data_used_on_visit_id body)
                       (with_default "active" (data_status body))
                       (data_notes body)) st) st)))
    as (st' & -> & Hrows & Hnext).
  exists st'. split; [done |]. rewrite Hrows, Hnext. cbn [insert fst vehicle_offers vehicle_offers_auto_increment].
  split; [| done]. f_equal. unfold created_offer.
  cbn [data_vehicle_id data_offer_id data_earned_on_visit_id data_issued_date
       data_used_date data_used_on_visit_id data_status data_notes].
  by destruct (data_status body).
Qed.

Lemma createVehicleOffer_checks_pass (body : offerData) st v o :
  data_vehicle_id body = val v -> v <> 0 ->
  data_offer_id body = val o -> o <> 0 ->
  hasActiveOffer (Some v) (Some o) st = (st, Resolved false) ->
  createVehicleOffer_checks body st = (st, Resolved None).
Proof.
  intros Hv Hv0 Ho Ho0 Hnone. unfold createVehicleOffer_checks, try_catch.
  rewrite Hv, Ho. cbn [not_ to_sql]. unfold falsy, falsy_Z.
  rewrite (proj2 (Z.eqb_neq v 0)), (proj2 (Z.eqb_neq o 0)) by done.
  cbn [orb]. unfold bind. by rewrite Hnone.
Qed.

Lemma created_offer_active (body : offerData) st v o :
  data_vehicle_id body = val v ->
  data_offer_id body = val o ->
  Offer.strict_eq (with_default "active" (data_status body)) "active" = true ->
  active_for (Some v) (Some o) (created_offer body st) = true.
Proof.
  intros Hv Ho Hs. unfold active_for, is_status, sql_eq, created_offer.
  cbn [vehicle_id offer_id status]. rewrite Hv, Ho. cbn [to_sql].
  rewrite !bool_decide_eq_true_2 by done. cbn [andb].
  unfold Offer.strict_eq in Hs.
  destruct (with_default "active" (data_status body)) as [| | s]; done.
Qed.

(** X12. The rule of one active offer per pair holds for requests served
    one at a time, and only for them. The handler is its check followed by
    its insert, and served with nothing in between it keeps the rule: if
    no (vehicle_id, offer_id) has two 'active' rows before the request,
    none has after it, whatever the body. The check and the insert are
    separate awaited statements, without a transaction: when two requests
    for a pair that has no active offer both have their check answered
    before either insert is sent, both answer 201 and the pair is left
    with two 'active' rows. *)
Theorem createVehicleOffer_keeps_unique_active fuel st (body : offerData) :
  (unique_active st -> unique_active (fst (createVehicleOffer fuel body st)))
  /\ createVehicleOffer fuel body st = createVehicleOffer_alone fuel body st
  /\ (forall v o,
        data_vehicle_id body = val v -> v <> 0 ->
        data_offer_id body = val o -> o <> 0 ->
        Offer.strict_eq (with_default "active" (data_status body)) "active" = true ->
        hasActiveOffer (Some v) (Some o) st = (st, Resolved false) ->
        exists st',
          createVehicleOffer_concurrently (S (S fuel)) body body st
          = (st', Resolved
                    (mkResponse 201 true "Vehicle offer created successfully",
                     mkResponse 201 true "Vehicle offer created successfully"))
          /\ duplicate_active v o st'
          /\ ~ unique_active st').
Proof.
  split; [| split].
  - apply unique_active_createVehicleOffer.
  - apply createVehicleOffer_in_two_parts.
  - intros v o Hv Hv0 Ho Ho0 Hactive Hnone.
    assert (not_ (data_vehicle_id body) || not_ (data_offer_id body) = false)
      as Hids.
    { rewrite Hv, Ho. cbn [not_]. unfold falsy, falsy_Z.
      by rewrite (proj2 (Z.eqb_neq v 0)), (proj2 (Z.eqb_neq o 0)). }
    unfold createVehicleOffer_concurrently.
    erewrite bind_run by (by eapply createVehicleOffer_checks_pass).
    erewrite bind_run by (by eapply createVehicleOffer_checks_pass).
    cbn [resume].
    destruct (createVehicleOffer_inserts_run fuel body st Hids)
      as (st1 & Hrun1 & Hrows1 & Hnext1).
    erewrite bind_run by exact Hrun1.
    destruct (createVehicleOffer_inserts_run fuel body st1 Hids)
      as (st2 & Hrun2 & Hrows2 & Hnext2).
    erewrite bind_run by exact Hrun2.
    exists st2. split; [done |].
    assert (duplicate_active v o st2) as Hdup.
    { exists (vehicle_offers_auto_increment st), (vehicle_offers_auto_increment st1),
             (created_offer body st), (created_offer body st1).
      rewrite Hrows2, Hrows1, Hnext1.
      split; [lia |]. split.
      { rewrite lookup_insert_ne by lia. apply lookup_insert_eq. }
      split; [apply lookup_insert_eq |].
      split; by apply created_offer_active. }
    split; [exact Hdup |].
    intros Huniq. destruct Hdup as (i & j & ri & rj & Hne & Hi & Hj & Hai & Haj).
    apply Hne. by apply (Huniq v o i j ri rj).
Qed.

Lemma count_used_outcome fuel vehicleOffer st :
  forall e, snd (count_used fuel vehicleOffer st) <> Rejected e.
Proof. apply (try_catch_ret_outcome _ (fun _ => tt)). Qed.

Lemma markOfferAsUsed_unfold fuel i used_on_visit_id notes :
  markOfferAsUsed fuel i used_on_visit_id notes =
  try_catch
    (if not_ used_on_visit_id then
       ret (mkResponse 400 false "Used on visit ID is required")
     else
       let! vehicleOffer := markAsUsed i (to_sql used_on_visit_id) notes in
       await count_used fuel vehicleOffer ;;
       ret (mkResponse 200 true "Vehicle offer marked as used successfully"))
    (fun error => ret (mkResponse 500 false "Error marking offer as used")).
Proof. reflexivity. Qed.

(** X13. A handler that answers without success has written nothing:
    whenever createVehicleOffer, markOfferAsUsed, markOfferAsExpired,
    updateVehicleOffer, deleteVehicleOffer or bulkExpireOffers answers with
    success = false (400, 404 or 500), the store is as it was before the
    request. *)
Theorem failure_writes_nothing (q : request) st st' resp :
  handle q st = (st', Resolved resp) ->
  success resp = false ->
  st' = st.
Proof.
  destruct q as [fuel body | fuel i visit notes | i notes | i body | i |];
    cbn [handle].
  - rewrite createVehicleOffer_unfold. unfold try_catch.
    destruct (not_ (data_vehicle_id body) || not_ (data_offer_id body)) eqn:Hids;
      [by intros [= <- _] |].
    erewrite bind_run by apply hasActiveOffer_run.
    destruct ((0 <? count_active _ _ st) && Offer.strict_eq _ "active");
      [by intros [= <- _] |].
    erewrite bind_run.
    2:{ apply create_run. exact Hids. }
    unfold bind.
    match goal with
    | |- context [count_earned fuel body ?s] =>
        pose proof (count_earned_outcome fuel body s) as Hout;
        destruct (count_earned fuel body s) as [st2 [a' | e |]]
    end.
    + by intros [= _ <-].
    + by destruct (Hout e).
    + done.
  - rewrite markOfferAsUsed_unfold. unfold try_catch at 1.
    destruct (not_ visit); [by intros [= <- _] |].
    destruct (vehicle_offers st !! i) as [r|] eqn:Hr.
    + destruct (decide (status r = Some "active")) as [Ha | Hn].
      * erewrite bind_run by (by apply markAsUsed_active).
        unfold bind.
        match goal with
        | |- context [count_used fuel ?o ?s] =>
            pose proof (count_used_outcome fuel o s) as Hout;
            destruct (count_used fuel o s) as [st2 [a' | e |]]
        end.
        -- by intros [= _ <-].
        -- by destruct (Hout e).
        -- done.
      * unfold bind. rewrite markAsUsed_not_active by (intros; congruence).
        by intros [= <- _].
    + unfold bind. rewrite markAsUsed_not_active by (intros; congruence).
      by intros [= <- _].
  - unfold markOfferAsExpired, try_catch.
    destruct (vehicle_offers st !! i) as [r|] eqn:Hr.
    + destruct (decide (status r = Some "active")) as [Ha | Hn].
      * erewrite bind_run by (by apply markAsExpired_active).
        by intros [= _ <-].
      * unfold bind. rewrite markAsExpired_not_active by (intros; congruence).
        by intros [= <- _].
    + unfold bind. rewrite markAsExpired_not_active by (intros; congruence).
      by intros [= <- _].
  - unfold updateVehicleOffer, try_catch, bind, findById, query, select_by_id.
    destruct (vehicle_offers st !! i) as [r|] eqn:Hr; simpl;
      [| by intros [= <- _]].
    destruct ((truthy (data_vehicle_id body) || truthy (data_offer_id body))
              && Offer.strict_eq (data_status body) "active").
    + unfold hasActiveOffer, bind, query, ret, id. simpl. rewrite Z.eqb_refl.
      rewrite andb_false_r.
      destruct (no_fields body); [by intros [= <- _] |].
      unfold update, bind, execute, update_where_id. rewrite Hr. simpl.
      unfold findById, query. simpl. by intros [= _ <-].
    + unfold ret.
      destruct (no_fields body); [by intros [= <- _] |].
      unfold update, bind, execute, update_where_id. rewrite Hr. simpl.
      unfold findById, query. simpl. by intros [= _ <-].
  - unfold deleteVehicleOffer, try_catch, bind, findById, query, select_by_id.
    destruct (vehicle_offers st !! i) as [r|] eqn:Hr; simpl;
      [| by intros [= <- _]].
    unfold delete, bind, execute, delete_where_id. rewrite Hr. simpl.
    by intros [= _ <-].
  - unfold bulkExpireOffers, try_catch, bind, expireOffers, execute. simpl.
    by intros [= _ <-].
Qed.

End VehicleOfferHandlers.

(** ** Pagination of the list handlers *)

Section Pagination.

Import VehicleOfferController.

Context {A : Type}.

Implicit Types (rows : list A) (page limit : Z).

Lemma slice_forward rows (a b : Z) :
  0 <= a -> a <= b ->
  slice rows a b = take (Z.to_nat (b - a)) (drop (Z.to_nat a) rows).
Proof.
  intros Ha Hab. unfold slice, relative_index.
  rewrite (proj2 (Z.ltb_ge a 0)) by lia. rewrite (proj2 (Z.ltb_ge b 0)) by lia.
  destruct (decide (Z.of_nat (length rows) <= a)) as [Hout | Hin].
  - rewrite !Z.min_r by lia. rewrite Z.sub_diag. simpl.
    rewrite (drop_ge rows (Z.to_nat a)) by lia. by rewrite take_nil.
  - rewrite (Z.min_l a) by lia.
    destruct (decide (b <= Z.of_nat (length rows))) as [Hb | Hb].
    + by rewrite Z.min_l by lia.
    + rewrite Z.min_r by lia.
      rewrite !take_ge; [done | |]; rewrite length_drop; lia.
Qed.

Lemma paginate_data rows page limit :
  1 <= page -> 1 <= limit ->
  data (paginate rows page limit)
  = take (Z.to_nat limit) (drop (Z.to_nat ((page - 1) * limit)) rows).
Proof.
  intros Hp Hl. unfold paginate. cbn [data].
  rewrite slice_forward by nia. do 2 f_equal. lia.
Qed.

(** X16. A page holds the rows it should: for page >= 1 and limit >= 1
    the data of a page are the rows from position (page - 1) * limit on, at
    most limit of them, and exactly limit of them when a next page is
    announced. *)
Theorem paginate_page rows page limit :
  1 <= page -> 1 <= limit ->
  data (paginate rows page limit)
    = take (Z.to_nat limit) (drop (Z.to_nat ((page - 1) * limit)) rows)
  /\ Z.of_nat (length (data (paginate rows page limit))) <= limit
  /\ (has_next (paginate rows page limit) = true ->
      Z.of_nat (length (data (paginate rows page limit))) = limit).
Proof.
  intros Hp Hl. rewrite paginate_data by done.
  split; [done |]. rewrite length_take, length_drop. split; [lia |].
  unfold paginate. cbn [has_next]. rewrite Z.ltb_lt. nia.
Qed.

Lemma pages_concat rows (limit n : nat) :
  concat (map (fun p => take limit (drop (p * limit) rows)) (seq 0 n))
  = take (n * limit) rows.
Proof.
  induction n as [| n IH]; [done |].
  rewrite seq_S, map_app, concat_app, IH. simpl. rewrite app_nil_r.
  rewrite take_take_drop. f_equal. lia.
Qed.

(** X17. The pages partition the list: for limit >= 1, total_pages is a
    number n, and the data of pages 1 to n, one after the other, are
    exactly the rows, in order. *)
Theorem paginate_partition rows limit :
  1 <= limit ->
  exists n : nat,
    total_pages (paginate rows 1 limit) = Some (Z.of_nat n)
    /\ concat (map (fun p => data (paginate rows (Z.of_nat p) limit))
                   (seq 1 n))
       = rows.
Proof.
  intros Hl.
  set (len := Z.of_nat (length rows)).
  set (c := - ((- len) / limit)).
  assert (limit * (c - 1) < len <= limit * c) as Hc.
  { unfold c. pose proof (Z.div_mod (- len) limit ltac:(lia)) as Hdm.
    pose proof (Z.mod_pos_bound (- len) limit ltac:(lia)) as Hmod. nia. }
  assert (0 <= c) as Hc0 by nia.
  exists (Z.to_nat c). split.
  { unfold paginate, ceil_div. cbn [total_pages].
    rewrite (proj2 (Z.eqb_neq limit 0)) by lia. fold len. fold c.
    by rewrite Z2Nat.id. }
  transitivity (concat (map (fun p => take (Z.to_nat limit)
                                        (drop (p * Z.to_nat limit) rows))
                            (seq 0 (Z.to_nat c)))).
  { f_equal. rewrite <- (fmap_S_seq 0). rewrite <- list_fmap_compose.
    apply list_fmap_ext. intros _ p _. cbv [compose].
    rewrite paginate_data by lia. do 2 f_equal. lia. }
  rewrite pages_concat. apply take_ge. nia.
Qed.

Lemma paginate_next_flag rows page limit n :
  1 <= limit ->
  total_pages (paginate rows page limit) = Some n ->
  0 <= n /\ (has_next (paginate rows page limit) = true <-> page < n).
Proof.
  intros Hl. unfold paginate, ceil_div. cbn [total_pages has_next].
  rewrite (proj2 (Z.eqb_neq limit 0)) by lia. intros [= <-].
  set (len := Z.of_nat (length rows)).
  pose proof (Z.div_mod (- len) limit ltac:(lia)) as Hdm.
  pose proof (Z.mod_pos_bound (- len) limit ltac:(lia)) as Hmod.
  rewrite Z.ltb_lt. split; [nia | split; nia].
Qed.

(** X18. has_next agrees with total_pages: for limit >= 1, a page
    announces a next page exactly when its number is below total_pages;
    has_prev holds exactly from page 2 on. *)
Theorem paginate_has_next rows page limit :
  1 <= limit ->
  exists n,
    total_pages (paginate rows page limit) = Some n
    /\ 0 <= n
    /\ (has_next (paginate rows page limit) = true <-> page < n)
    /\ (has_prev (paginate rows page limit) = true <-> 1 < page)
    /\ (n = 0 <-> rows = []).
Proof.
  intros Hl.
  set (len := Z.of_nat (length rows)).
  set (c := - ((- len) / limit)).
  assert (limit * (c - 1) < len <= limit * c) as Hc.
  { unfold c. pose proof (Z.div_mod (- len) limit ltac:(lia)) as Hdm.
    pose proof (Z.mod_pos_bound (- len) limit ltac:(lia)) as Hmod. nia. }
  exists c. unfold paginate, ceil_div. cbn [total_pages has_next has_prev].
  rewrite (proj2 (Z.eqb_neq limit 0)) by lia. fold len. fold c.
  split; [done |]. split; [nia |]. rewrite !Z.ltb_lt. fold len.
  split; [split; nia |]. split; [done |].
  split.
  - intros ->. apply length_zero_iff_nil. lia.
  - intros ->. simpl in *. nia.
Qed.

(** X19. Outside the pages: page 0 is empty for every limit, and for
    limit >= 1 every page past total_pages is empty and announces no next
    page. *)
Theorem paginate_outside rows page limit :
  data (paginate rows 0 limit) = []
  /\ (1 <= limit ->
      forall n, total_pages (paginate rows page limit) = Some n -> n < page ->
        data (paginate rows page limit) = []
        /\ has_next (paginate rows page limit) = false).
Proof.
  split.
  - unfold paginate, slice, relative_index. cbn [data].
    replace (0 * limit) with 0 by lia. rewrite Z.ltb_irrefl.
    rewrite Z.min_l by lia.
    replace (Z.to_nat (0 - _)) with 0%nat; [done |].
    destruct ((0 - 1) * limit <? 0) eqn:E; [lia |].
    apply Z.ltb_ge in E. lia.
  - intros Hl n Hn Hlt.
    destruct (paginate_next_flag rows page limit n Hl Hn) as [Hn0 Hnext].
    split.
    + rewrite paginate_data by lia.
      revert Hn. unfold paginate, ceil_div. cbn [total_pages].
      rewrite (proj2 (Z.eqb_neq limit 0)) by lia. intros [= Hn].
      pose proof (Z.div_mod (- Z.of_nat (length rows)) limit ltac:(lia)) as Hdm.
      pose proof (Z.mod_pos_bound (- Z.of_nat (length rows)) limit ltac:(lia))
        as Hmod.
      rewrite drop_ge; [by rewrite take_nil | nia].
    + apply not_true_is_false. intros E. apply Hnext in E. lia.
Qed.

End Pagination.

(** ** Handlers and the statistics *)

Section HandlersAndStatistics.

Import VehicleOffer VehicleOfferController.

Implicit Types (st : Store) (i : Z) (r : VehicleOfferRow).

(** X14. A failing statistics update does not fail the redemption: when
    the active offer's vehicle is in neither vehicles nor vehicle_stats (or
    the row has no vehicle id), markOfferAsUsed still answers success, the
    offer is 'used', and vehicle_stats is left as it was. *)
Theorem markOfferAsUsed_tolerates_missing_vehicle fuel st i r visit notes :
  vehicle_offers st !! i = Some r ->
  status r = Some "active" ->
  visit <> 0 ->
  (vehicle_id r = None
   \/ exists v, vehicle_id r = Some v
        /\ (v ∉ vehicles st) /\ vehicle_stats st !! v = None) ->
  markOfferAsUsed (S fuel) i (val visit) notes st
  = (set_vehicle_offers
       (<[i := used_row st (Some visit) notes r]> (vehicle_offers st)) st,
     Resolved (mkResponse 200 true "Vehicle offer marked as used successfully")).
Proof.
  intros Hr Ha Hvisit Hveh. rewrite markOfferAsUsed_unfold. unfold try_catch at 1.
  unfold not_, falsy, falsy_Z. rewrite (proj2 (Z.eqb_neq visit 0) Hvisit).
  erewrite bind_run by (by apply markAsUsed_active).
  change (to_sql (val visit)) with (Some visit).
  set (st1 := set_vehicle_offers _ st).
  assert (count_used (S fuel) (@Some found (i, used_row st (Some visit) notes r)) st1
          = (st1, Resolved tt)) as Hcount.
  { unfold count_used, try_catch. cbn [row snd used_row vehicle_id].
    destruct Hveh as [-> | (v & -> & Hout & Hnone)]; [done |].
    cbn [with_vehicle]. unfold bind at 1.
    rewrite incrementOffersUsed_absent by done.
    unfold bind at 1. by rewrite recordVisit_unknown. }
  cbv beta. unfold bind. by rewrite Hcount.
Qed.

(** X15. The earned counter follows the create handler's rule. A request
    that does not name the visit that earned the offer, or whose status is
    not 'active', never changes vehicle_stats; a request that creates an
    active offer with earned_on_visit_id for a vehicle that has a
    statistics row answers 201 and adds exactly 1 to total_offers_earned,
    leaving the visit counters and total_offers_used alone. *)
Theorem createVehicleOffer_counts_earned fuel st (body : offerData) :
  (truthy (data_earned_on_visit_id body) = false
   \/ Offer.strict_eq (with_default "active" (data_status body)) "active" = false ->
   vehicle_stats (fst (createVehicleOffer fuel body st)) = vehicle_stats st)
  /\ (forall v o s,
        data_vehicle_id body = val v -> v <> 0 ->
        data_offer_id body = val o -> o <> 0 ->
        Offer.strict_eq (with_default "active" (data_status body)) "active" = true ->
        truthy (data_earned_on_visit_id body) = true ->
        hasActiveOffer (Some v) (Some o) st = (st, Resolved false) ->
        vehicle_stats st !! v = Some s ->
        exists st' s',
          createVehicleOffer (S fuel) body st
            = (st', Resolved (mkResponse 201 true
                                "Vehicle offer created successfully"))
          /\ vehicle_stats st' = <[v := s']> (vehicle_stats st)
          /\ total_offers_earned s' = total_offers_earned s + 1
          /\ total_offers_used s' = total_offers_used s
          /\ total_visits s' = total_visits s
          /\ current_visit_count s' = current_visit_count s).
Proof.
  split.
  - intros Hnot. rewrite createVehicleOffer_store.
    destruct (not_ (data_vehicle_id body) || not_ (data_offer_id body)); [done |].
    destruct ((0 <? count_active _ _ st) && Offer.strict_eq _ "active"); [done |].
    unfold count_earned.
    replace (Offer.strict_eq _ "active" && truthy _) with false; [done |].
    destruct Hnot as [-> | ->]; [by rewrite andb_false_r | done].
  - intros v o s Hv Hv0 Ho Ho0 Hst Hearned Hnone Hs.
    rewrite createVehicleOffer_unfold. unfold try_catch at 1.
    rewrite Hv, Ho. unfold not_, falsy, falsy_Z.
    rewrite (proj2 (Z.eqb_neq v 0) Hv0), (proj2 (Z.eqb_neq o 0) Ho0).
    cbn [orb to_sql]. erewrite bind_run by exact Hnone. cbn [andb].
    erewrite bind_run.
    2:{ apply create_run. cbn [data_vehicle_id data_offer_id].
        unfold not_, falsy, falsy_Z.
        by rewrite (proj2 (Z.eqb_neq v 0) Hv0), (proj2 (Z.eqb_neq o 0) Ho0). }
    set (st1 := fst (insert _ st)).
    assert (vehicle_stats st1 !! v = Some s) as Hs1 by exact Hs.
    unfold bind. unfold count_earned. rewrite Hst, Hearned, Hv.
    cbn [andb to_sql with_vehicle]. unfold try_catch, bind.
    rewrite (incrementOffersEarned_present _ _ _ _ Hs1).
    eexists _, _. split; [done |]. simpl. done.
Qed.

End HandlersAndStatistics.

(** ** Ids of service records *)

Section ServiceIds.

Implicit Types (now : jsDate).

Lemma checked_on_range (check : Z -> bool) (lo : Z) (len : Z) :
  forallb check (seqZ lo len) = true ->
  forall n, lo <= n < lo + len -> check n = true.
Proof.
  intros Hall n Hn. rewrite forallb_forall in Hall. apply Hall.
  apply list_elem_of_In, elem_of_seqZ. lia.
Qed.

Lemma year_piece y : 1000 <= y <= 9999 -> year_piece_ok y = true.
Proof.
  intros Hy. apply (checked_on_range year_piece_ok 1000 9000); [| lia].
  vm_compute. reflexivity.
Qed.

Lemma two_digit_piece n : 0 <= n <= 99 -> two_digit_piece_ok n = true.
Proof.
  intros Hn. apply (checked_on_range two_digit_piece_ok 0 100); [| lia].
  vm_compute. reflexivity.
Qed.

Lemma millis_piece ms : 0 <= ms <= 999 -> millis_piece_ok ms = true.
Proof.
  intros Hms. apply (checked_on_range millis_piece_ok 0 1000); [| lia].
  vm_compute. reflexivity.
Qed.

(** The id as the characters it keeps: the four of the year, two for each
    of month, day, hours, minutes and seconds, and the first character of
    the padded hundredths, which is always 0; with what [parseInt] reads
    in the places where [parseId] cuts. *)
Lemma generateId_chars now :
  in_range now ->
  exists y1 y2 y3 y4 a1 a2 b1 b2 c1 c2 d1 d2 e1 e2,
    AttendantService.generateId now
    = String y1 (String y2 (String y3 (String y4 (String a1 (String a2
      (String b1 (String b2 (String c1 (String c2 (String d1 (String d2
      (String e1 (String e2 (String "0"%char EmptyString))))))))))))))
    /\ parseInt (String y1 (String y2 EmptyString)) = Some (getFullYear now / 100)
    /\ parseInt ("20" +:+ String y1 (String y2 EmptyString))
       = Some (2000 + getFullYear now / 100)
    /\ parseInt (String y3 (String y4 EmptyString)) = Some (getFullYear now mod 100)
    /\ parseInt (String a1 (String a2 EmptyString)) = Some (getMonth now + 1)
    /\ parseInt (String b1 (String b2 EmptyString)) = Some (getDate now)
    /\ parseInt (String c1 (String c2 EmptyString)) = Some (getHours now)
    /\ parseInt (String d1 (String d2 EmptyString)) = Some (getMinutes now)
    /\ parseInt (String e1 (String e2 (String "0"%char EmptyString)))
       = Some (getSeconds now * 10).
Proof.
  intros (Hy & Hmo & Hd & Hh & Hmi & Hs & Hms).
  unfold AttendantService.generateId.
  pose proof (year_piece _ Hy) as Py.
  pose proof (two_digit_piece (getMonth now + 1) ltac:(lia)) as Pmo.
  pose proof (two_digit_piece (getDate now) ltac:(lia)) as Pd.
  pose proof (two_digit_piece (getHours now) ltac:(lia)) as Ph.
  pose proof (two_digit_piece (getMinutes now) ltac:(lia)) as Pmi.
  pose proof (two_digit_piece (getSeconds now) ltac:(lia)) as Ps.
  pose proof (millis_piece _ Hms) as Pms.
  unfold year_piece_ok in Py. unfold two_digit_piece_ok in Pmo, Pd, Ph, Pmi, Ps.
  unfold millis_piece_ok in Pms.
  destruct (toString (getFullYear now))
    as [| y1 [| y2 [| y3 [| y4 [|]]]]]; try discriminate.
  destruct (padStart 2 (toString (getMonth now + 1)))
    as [| a1 [| a2 [|]]]; try discriminate.
  destruct (padStart 2 (toString (getDate now)))
    as [| b1 [| b2 [|]]]; try discriminate.
  destruct (padStart 2 (toString (getHours now)))
    as [| c1 [| c2 [|]]]; try discriminate.
  destruct (padStart 2 (toString (getMinutes now)))
    as [| d1 [| d2 [|]]]; try discriminate.
  destruct (padStart 2 (toString (getSeconds now)))
    as [| e1 [| e2 [|]]]; try discriminate.
  destruct (padStart 3 (toString (getMilliseconds now / 10)))
    as [| m1 [| m2 [| m3 [|]]]]; try discriminate.
  apply bool_decide_eq_true in Pms as ->.
  apply andb_true_iff in Py as [Py Py3]. apply andb_true_iff in Py as [Py1 Py2].
  apply andb_true_iff in Pmo as [Pmo _]. apply andb_true_iff in Pd as [Pd _].
  apply andb_true_iff in Ph as [Ph _]. apply andb_true_iff in Pmi as [Pmi _].
  apply andb_true_iff in Ps as [_ Ps].
  apply bool_decide_eq_true in Py1, Py2, Py3, Pmo, Pd, Ph, Pmi, Ps.
  exists y1, y2, y3, y4, a1, a2, b1, b2, c1, c2, d1, d2, e1, e2.
  split; [reflexivity |]. repeat split; assumption.
Qed.

(** X20. An id has second resolution: for a Date in range, [generateId]
    gives 15 characters ending in 0, and two Dates that differ only in
    their milliseconds get the same id (the same holds of the copy of the
    function in CarRegistry). *)
Theorem generateId_drops_milliseconds now (ms' : Z) :
  in_range now ->
  0 <= ms' <= 999 ->
  let later := mkJsDate (getFullYear now) (getMonth now) (getDate now)
                        (getHours now) (getMinutes now) (getSeconds now) ms' in
  String.length (AttendantService.generateId now) = 15%nat
  /\ substring 14 15 (AttendantService.generateId now) = "0"
  /\ AttendantService.generateId later = AttendantService.generateId now
  /\ CarRegistry.generateId later = CarRegistry.generateId now.
Proof.
  intros Hnow Hms later.
  assert (AttendantService.generateId later = AttendantService.generateId now)
    as Hsame.
  { destruct Hnow as (Hy & Hmo & Hd & Hh & Hmi & Hs & Hms0).
    unfold AttendantService.generateId. cbn [later getFullYear getMonth getDate
      getHours getMinutes getSeconds getMilliseconds].
    pose proof (millis_piece _ Hms) as P1. pose proof (millis_piece _ Hms0) as P2.
    pose proof (year_piece _ Hy) as Py.
    pose proof (two_digit_piece (getMonth now + 1) ltac:(lia)) as Pmo.
    pose proof (two_digit_piece (getDate now) ltac:(lia)) as Pd.
    pose proof (two_digit_piece (getHours now) ltac:(lia)) as Ph.
    pose proof (two_digit_piece (getMinutes now) ltac:(lia)) as Pmi.
    pose proof (two_digit_piece (getSeconds now) ltac:(lia)) as Ps.
    unfold year_piece_ok in Py.
    unfold two_digit_piece_ok in Pmo, Pd, Ph, Pmi, Ps.
    unfold millis_piece_ok in P1, P2.
    destruct (toString (getFullYear now))
      as [| y1 [| y2 [| y3 [| y4 [|]]]]]; try discriminate.
    destruct (padStart 2 (toString (getMonth now + 1)))
      as [| a1 [| a2 [|]]]; try discriminate.
    destruct (padStart 2 (toString (getDate now)))
      as [| b1 [| b2 [|]]]; try discriminate.
    destruct (padStart 2 (toString (getHours now)))
      as [| c1 [| c2 [|]]]; try discriminate.
    destruct (padStart 2 (toString (getMinutes now)))
      as [| d1 [| d2 [|]]]; try discriminate.
    destruct (padStart 2 (toString (getSeconds now)))
      as [| e1 [| e2 [|]]]; try discriminate.
    destruct (padStart 3 (toString (ms' / 10)))
      as [| m1 [| m2 [| m3 [|]]]]; try discriminate.
    destruct (padStart 3 (toString (getMilliseconds now / 10)))
      as [| n1 [| n2 [| n3 [|]]]]; try discriminate.
    apply bool_decide_eq_true in P1 as ->.
    apply bool_decide_eq_true in P2 as ->.
    reflexivity. }
  destruct (generateId_chars now Hnow)
    as (y1 & y2 & y3 & y4 & a1 & a2 & b1 & b2 & c1 & c2 & d1 & d2 & e1 & e2
        & Hid & _).
  split; [by rewrite Hid |]. split; [by rewrite Hid |].
  split; [exact Hsame |]. exact Hsame.
Qed.

(** X21. [parseId] does not read an id back as [generateId] wrote it
    (yyyy mm dd hh MM ss and one digit, against the yy dd mm hh MM ss sss
    it cuts): on the id of a Date in range, AttendantService.parseId
    resolves with year 2000 + the century digits, day the last two digits
    of the year, hours the day of the month, minutes the hours, seconds
    the minutes and milliseconds ten times the seconds; only the month is
    that of the Date. *)
Theorem AttendantService_parseId_generateId now :
  in_range now ->
  AttendantService.parseId (AttendantService.generateId now)
  = inr (mkParsedId (Some (2000 + getFullYear now / 100))
                    (Some (getMonth now + 1))
                    (Some (getFullYear now mod 100))
                    (Some (getDate now))
                    (Some (getHours now))
                    (Some (getMinutes now))
                    (Some (getSeconds now * 10))).
Proof.
  intros Hnow.
  destruct (generateId_chars now Hnow)
    as (y1 & y2 & y3 & y4 & a1 & a2 & b1 & b2 & c1 & c2 & d1 & d2 & e1 & e2
        & -> & Hy1 & Hy2 & Hy3 & Ha & Hb & Hc & Hd & He).
  unfold AttendantService.parseId.
  cbn [String.length Nat.eqb negb substring String.substring Nat.sub].
  by rewrite Hy2, Hy3, Ha, Hb, Hc, Hd, He.
Qed.

(** X22. The same for CarRegistry.parseId, which does not prefix the
    year: on the id of a Date in range it resolves with year the century
    digits alone, and the other fields shifted as above. *)
Theorem CarRegistry_parseId_generateId now :
  in_range now ->
  CarRegistry.parseId (CarRegistry.generateId now)
  = inr (mkParsedId (Some (getFullYear now / 100))
                    (Some (getMonth now + 1))
                    (Some (getFullYear now mod 100))
                    (Some (getDate now))
                    (Some (getHours now))
                    (Some (getMinutes now))
                    (Some (getSeconds now * 10))).
Proof.
  intros Hnow.
  change (CarRegistry.generateId now) with (AttendantService.generateId now).
  destruct (generateId_chars now Hnow)
    as (y1 & y2 & y3 & y4 & a1 & a2 & b1 & b2 & c1 & c2 & d1 & d2 & e1 & e2
        & -> & Hy1 & Hy2 & Hy3 & Ha & Hb & Hc & Hd & He).
  unfold CarRegistry.parseId.
  cbn [String.length Nat.eqb negb substring String.substring Nat.sub].
  by rewrite Hy1, Hy3, Ha, Hb, Hc, Hd, He.
Qed.

End ServiceIds.

(** ** The offer catalogue *)

Section OfferCatalogue.

Import Offer.

Implicit Types (st : Store) (d : offerData).



End OfferCatalogue.

(** ** The further properties on concrete inputs *)

Section FurtherExamples.

Import VehicleOffer VehicleOfferController.

Lemma visits_add_up_three_visits :
  7 ∈ vehicles forecourt
  /\ exists s',
       vehicle_stats (visits_at (three_times ++ [third_time]) 7 forecourt) !! 7
         = Some s'
       /\ total_visits s' = 3 /\ current_visit_count s' = 3
       /\ last_visit_date s' = Some third_time.
Proof.
  split; [exact forecourt_vehicle |].
  destruct (visits_add_up three_times third_time forecourt 7 forecourt_vehicle)
    as (s' & Hs' & Ht & Hc & _ & _ & Hl).
  exists s'. repeat split; assumption.
Defined.

Lemma two_holders_fresh : fresh_vehicle_offer_id two_holders.
Proof. vm_compute. reflexivity. Defined.

Lemma create_then_findById_vehicle_7 :
  fresh_vehicle_offer_id two_holders
  /\ exists st' r,
       create earned_by_vehicle_7 two_holders = (st', Resolved (Some (3, r)))
       /\ findById 3 st' = (st', Resolved (Some (3, r)))
       /\ vehicle_id r = Some 7 /\ offer_id r = Some 1
       /\ status r = Some "active"
       /\ issued_date r = Some noon.
Proof.
  split; [exact two_holders_fresh |].
  destruct (create_then_findById two_holders earned_by_vehicle_7 7 1
              eq_refl ltac:(lia) eq_refl ltac:(lia) two_holders_fresh)
    as (st' & r & Hc & Hf & Hv & Ho & Hs & Hi & _).
  exists st', r. repeat split; assumption.
Defined.


Lemma expireOffers_spares_used_offer :
  vehicle_offers redeemed !! 1 = Some used_offer
  /\ vehicle_offers (fst (expireOffers redeemed)) !! 1 = Some used_offer.
Proof.
  split; [exact redeemed_row |].
  apply (expireOffers_spares redeemed 1 used_offer redeemed_row).
  left. exact used_offer_not_active.
Defined.

Lemma two_holders_unique_active : unique_active two_holders.
Proof.
  intros v o i j ri rj Hi Hj Hai Haj. unfold two_holders in Hi, Hj.
  cbn [vehicle_offers] in Hi, Hj.
  apply lookup_insert_Some in Hi as [[<- <-] | [Hi1 Hi]];
    apply lookup_insert_Some in Hj as [[<- <-] | [Hj1 Hj]]; try done.
  - apply lookup_singleton_Some in Hj as [<- <-].
    revert Hai Haj. vm_compute. destruct v as [| [| |] |]; try done.
    all: destruct o as [| [| |] |]; done.
  - apply lookup_singleton_Some in Hi as [<- <-].
    revert Hai Haj. vm_compute. destruct v as [| [| |] |]; try done.
    all: destruct o as [| [| |] |]; done.
  - apply lookup_singleton_Some in Hi as [<- _].
    by apply lookup_singleton_Some in Hj as [<- _].
Defined.

Lemma createVehicleOffer_keeps_unique_active_two_holders :
  unique_active two_holders
  /\ snd (createVehicleOffer 2 another_for_vehicle_1 two_holders)
     = Resolved (mkResponse 400 false
                   "Vehicle already has an active offer of this type")
  /\ unique_active (fst (createVehicleOffer 2 another_for_vehicle_1 two_holders))
  /\ hasActiveOffer (Some 1) (Some 2) two_holders = (two_holders, Resolved false)
  /\ exists st',
       createVehicleOffer_concurrently 2 offer_2_for_vehicle_1
                                         offer_2_for_vehicle_1 two_holders
       = (st', Resolved
                 (mkResponse 201 true "Vehicle offer created successfully",
                  mkResponse 201 true "Vehicle offer created successfully"))
       /\ duplicate_active 1 2 st'
       /\ ~ unique_active st'.
Proof.
  split; [exact two_holders_unique_active |].
  split; [vm_compute; reflexivity |].
  split.
  { destruct (createVehicleOffer_keeps_unique_active 2 two_holders
                another_for_vehicle_1) as [Halone _].
    exact (Halone two_holders_unique_active). }
  split; [vm_compute; reflexivity |].
  destruct (createVehicleOffer_keeps_unique_active 0 two_holders
              offer_2_for_vehicle_1) as (_ & _ & Hrace).
  apply (Hrace 1 2); try reflexivity; try discriminate.
Defined.

Lemma failure_writes_nothing_on_used_offer :
  snd (handle (MarkOfferAsExpired 1 null) redeemed)
    = Resolved (mkResponse 500 false "Error marking offer as expired")
  /\ fst (handle (MarkOfferAsExpired 1 null) redeemed) = redeemed.
Proof.
  split; [vm_compute; reflexivity |].
  apply (failure_writes_nothing (MarkOfferAsExpired 1 null) redeemed _
           (mkResponse 500 false "Error marking offer as expired")).
  - vm_compute. reflexivity.
  - reflexivity.
Defined.

Lemma markOfferAsUsed_orphan :
  vehicle_offers orphan_holder !! 1 = Some (active_offer 9 1)
  /\ (9 ∉ vehicles orphan_holder)
  /\ snd (markOfferAsUsed 1 1 (val 42) undefined orphan_holder)
     = Resolved (mkResponse 200 true "Vehicle offer marked as used successfully")
  /\ vehicle_stats (fst (markOfferAsUsed 1 1 (val 42) undefined orphan_holder))
     = ∅.
Proof.
  assert (9 ∉ vehicles orphan_holder) as Hout.
  { unfold orphan_holder. simpl. set_solver. }
  split; [reflexivity |]. split; [exact Hout |].
  rewrite (markOfferAsUsed_tolerates_missing_vehicle 0 orphan_holder 1
             (active_offer 9 1) 42 undefined eq_refl eq_refl ltac:(lia)).
  - split; reflexivity.
  - right. exists 9. split; [reflexivity |]. split; [exact Hout | reflexivity].
Defined.

Lemma paginate_second_page :
  data (paginate [10; 20; 30; 40; 50] 2 2) = [30; 40]
  /\ has_next (paginate [10; 20; 30; 40; 50] 2 2) = true.
Proof.
  destruct (paginate_page [10; 20; 30; 40; 50] 2 2 ltac:(lia) ltac:(lia))
    as (Hdata & _ & _).
  split; [rewrite Hdata; reflexivity | reflexivity].
Defined.

Lemma paginate_partition_five_rows :
  exists n : nat,
    total_pages (paginate [10; 20; 30; 40; 50] 1 2) = Some (Z.of_nat n)
    /\ concat (map (fun p => data (paginate [10; 20; 30; 40; 50] (Z.of_nat p) 2))
                   (seq 1 n))
       = [10; 20; 30; 40; 50].
Proof. exact (paginate_partition [10; 20; 30; 40; 50] 2 ltac:(lia)). Defined.

Lemma paginate_has_next_last_page :
  exists n,
    total_pages (paginate [10; 20; 30; 40; 50] 3 2) = Some n
    /\ (has_next (paginate [10; 20; 30; 40; 50] 3 2) = true <-> 3 < n).
Proof.
  destruct (paginate_has_next [10; 20; 30; 40; 50] 3 2 ltac:(lia))
    as (n & Hn & _ & Hnext & _).
  exists n. split; assumption.
Defined.

Lemma a_morning_in_range : in_range a_morning.
Proof. unfold in_range, a_morning. simpl. lia. Defined.

Lemma generateId_same_second :
  in_range a_morning
  /\ AttendantService.generateId (mkJsDate 2024 4 17 9 5 3 12)
     = AttendantService.generateId a_morning
  /\ String.length (AttendantService.generateId a_morning) = 15%nat.
Proof.
  split; [exact a_morning_in_range |].
  destruct (generateId_drops_milliseconds a_morning 12 a_morning_in_range
              ltac:(lia)) as (Hlen & _ & Hsame & _).
  split; [exact Hsame | exact Hlen].
Defined.

Lemma AttendantService_parseId_a_morning :
  in_range a_morning
  /\ AttendantService.parseId (AttendantService.generateId a_morning)
     = inr (mkParsedId (Some 2020) (Some 5) (Some 24) (Some 17) (Some 9)
                       (Some 5) (Some 30)).
Proof.
  split; [exact a_morning_in_range |].
  exact (AttendantService_parseId_generateId a_morning a_morning_in_range).
Defined.

Lemma CarRegistry_parseId_a_morning :
  in_range a_morning
  /\ CarRegistry.parseId (CarRegistry.generateId a_morning)
     = inr (mkParsedId (Some 20) (Some 5) (Some 24) (Some 17) (Some 9)
                       (Some 5) (Some 30)).
Proof.
  split; [exact a_morning_in_range |].
  exact (CarRegistry_parseId_generateId a_morning a_morning_in_range).
Defined.


End FurtherExamples.
